(** * InfoAgent: a shallow embedding of [info_agent.py]

    The agent asks a language model for a search query, looks the query up
    with the Brave web search API, formats every hit as a five-line text
    block and inserts the blocks one by one into a Supabase table.

    Python values that come out of [json.loads] are modelled by the
    inductive type [json]; dictionaries are finite maps with string keys.
    A Python [str] is a [string] whose characters are code points below
    256.  Calls that leave the process (the OpenAI, Brave and Supabase
    clients, the clock, the standard output, [time.sleep]) go through a
    state-and-exception monad: the state is the history of the calls made
    so far, and the answers of the outside world are given by an arbitrary
    [World], a family of functions of the history and the request. *)

From Stdlib Require Import ZArith String Ascii List Lia.
From stdpp Require Import base tactics option list gmap strings pretty.

Open Scope string_scope.
Open Scope Z_scope.
Open Scope list_scope.

(** ** Exceptions and results *)

(** The exceptions a run can raise.  [ExternalError] stands for whatever an
    external client raises ([requests.ConnectionError], [openai.APIError],
    [json.JSONDecodeError], a PostgREST error, ...), named by the client. *)
Inductive exn : Type :=
| ValueError (msg : string)
| AttributeError
| IndexError
| TypeError
| ExternalError (what : string).

Inductive result (A : Type) : Type :=
| Ok (a : A)
| Raise (e : exn).
Arguments Ok {A} a.
Arguments Raise {A} e.

Definition result_bind {A B} (f : A → result B) (r : result A) : result B :=
  match r with
  | Ok a => f a
  | Raise e => Raise e
  end.

#[global] Instance result_ret : MRet result := @Ok.
#[global] Instance result_mbind : MBind result := @result_bind.

Definition is_ok {A} (r : result A) : Prop := ∃ a, r = Ok a.

(** ** Strings *)

(** The newline of the f-strings. *)
Definition nl : string := String "010"%char EmptyString.

(** [str.isspace] on the code points below 256: TAB, LF, VT, FF, CR, the
    separators FS, GS, RS, US, the space, NEL and the no-break space. *)
Definition is_space (c : ascii) : bool :=
  let n := N_of_ascii c in
  ((9 <=? n) && (n <=? 13) || (28 <=? n) && (n <=? 32)
   || (n =? 133) || (n =? 160))%N.

(** [str.lstrip()], [str.rstrip()] and [str.strip()] without argument. *)
Fixpoint lstrip (s : string) : string :=
  match s with
  | EmptyString => EmptyString
  | String c s' => if is_space c then lstrip s' else s
  end.

Fixpoint rstrip (s : string) : string :=
  match s with
  | EmptyString => EmptyString
  | String c s' =>
      match rstrip s' with
      | EmptyString => if is_space c then EmptyString else String c EmptyString
      | r => String c r
      end
  end.

Definition strip (s : string) : string := rstrip (lstrip s).

(** Every character of [s] is white space. *)
Fixpoint all_space (s : string) : bool :=
  match s with
  | EmptyString => true
  | String c s' => is_space c && all_space s'
  end.

Definition first_char (s : string) : option ascii :=
  match s with
  | EmptyString => None
  | String c _ => Some c
  end.

Fixpoint last_char (s : string) : option ascii :=
  match s with
  | EmptyString => None
  | String c EmptyString => Some c
  | String _ s' => last_char s'
  end.

(** [s] neither starts nor ends with white space. *)
Definition trimmed (s : string) : Prop :=
  (∀ c, first_char s = Some c → is_space c = false) ∧
  (∀ c, last_char s = Some c → is_space c = false).

(** ** Credentials *)

Record InfoAgent : Type := {
  brave_api_key : string;
  openai_api_key : string;
  supabase_url : string;
  supabase_key : string
}.

(** Truth value of what [os.getenv] returns: [None] and [""] are false. *)
Definition env_truthy (v : option string) : bool :=
  match v with
  | None => false
  | Some s => negb (String.eqb s "")
  end.

Section Runtime.

(** Python floats are not represented: their type and their truth value are
    parameters, as is the text that formatting gives for a value that is
    not a [str] ([format(v, "")], that is [str(v)]). *)
Variable pyfloat : Type.
Variable float_truthy : pyfloat → bool.

(** ** JSON values *)

#[warnings="-register-all"]
Inductive json : Type :=
| JNull
| JBool (b : bool)
| JInt (z : Z)
| JFloat (f : pyfloat)
| JStr (s : string)
| JList (l : list json)
| JObject (m : gmap string json).

Variable py_format : json → string.

(** Truth value of a Python object, as [if v:] tests it. *)
Definition truthy (v : json) : bool :=
  match v with
  | JNull => false
  | JBool b => b
  | JInt z => negb (z =? 0)
  | JFloat f => float_truthy f
  | JStr s => negb (String.eqb s "")
  | JList l => match l with [] => false | _ :: _ => true end
  | JObject m => negb (bool_decide (m = ∅))
  end.

(** [v.get(key, default)]: only a [dict] has the method. *)
Definition py_get (v : json) (key : string) (dflt : json) : result json :=
  match v with
  | JObject m => Ok (match m !! key with Some x => x | None => dflt end)
  | _ => Raise AttributeError
  end.

(** [for item in v]: a list yields its elements, a [dict] its keys, a
    [str] its characters; the other values are not iterable.  (A [dict]
    yields its keys in insertion order, which the map does not keep; the
    items are strings in any order.) *)
Definition py_iter (v : json) : result (list json) :=
  match v with
  | JList l => Ok l
  | JObject m => Ok (JStr <$> (map_to_list m).*1)
  | JStr s => Ok ((λ c, JStr (String c EmptyString)) <$> list_ascii_of_string s)
  | _ => Raise TypeError
  end.

(** [f"{v}"]: a [str] is inserted as it is. *)
Definition fmt (v : json) : string :=
  match v with
  | JStr s => s
  | _ => py_format v
  end.

(** ** Requests and responses of the external services *)

(** [chat.completions.create(model=..., messages=..., max_tokens=...)];
    a message is a role and a content. *)
Record completion_request : Type := {
  model : string;
  messages : list (string * string);
  max_tokens : Z
}.

(** A completion choice: [choice.message.content] is a [str] or [None]. *)
Record choice : Type := { content : option string }.

Record completion : Type := { choices : list choice }.

(** [requests.get(url, headers=headers, params=params)]. *)
Record search_params : Type := {
  q : string;
  count : Z;
  search_lang : string;
  freshness : string
}.

Record get_request : Type := {
  url : string;
  headers : list (string * string);
  params : search_params
}.

(** An HTTP response: its status and what [response.json()] gives. *)
Record response : Type := {
  status_code : Z;
  response_json : result json
}.

(** The row built for one news item. *)
Record row : Type := {
  timestamp : string;
  finance_info : string
}.

(** What [insert(data).execute()] returns: [data] is [None] when the
    object has no attribute [data], else the attribute's value. *)
Record APIResponse : Type := { data : option json }.

(** ** History of a run *)

(** The lines the program prints, one constructor per [print]:
    [Searching for: {query}], [Stored {stored_count} items for query:
    {query}], [Error searching Brave: {status_code}] and
    [Error storing item: {result}]. *)
Inductive line : Type :=
| SearchingFor (query : string)
| StoredItems (stored_count : Z) (query : string)
| ErrorSearching (status : Z)
| ErrorStoring (result : APIResponse).

Inductive event : Type :=
| EvOpenAI (api_key : string)
| EvCreateClient (supabase_url supabase_key : string)
| EvCompletion (req : completion_request)
| EvGet (req : get_request)
| EvInsert (table : string) (r : row)
| EvPrint (l : line)
| EvSleep (seconds : Z).

Definition trace : Type := list event.

(** The outside world: the environment variables, and for each external
    call its outcome, given the history before the call and the request. *)
Record World : Type := {
  environ : gmap string string;
  new_OpenAI : trace → string → result unit;
  create_client : trace → string → string → result unit;
  completions_create : trace → completion_request → result completion;
  requests_get : trace → get_request → result response;
  datetime_now_isoformat : trace → string;
  table_insert_execute : trace → string → row → result APIResponse
}.

Variable W : World.

(** ** The monad of the agent's methods *)

Definition M (A : Type) : Type := trace → result A * trace.

Definition ret {A} (a : A) : M A := λ t, (Ok a, t).

Definition bind {A B} (f : A → M B) (m : M A) : M B :=
  λ t, match m t with
       | (Ok a, t') => f a t'
       | (Raise e, t') => (Raise e, t')
       end.

#[global] Instance M_ret : MRet M := @ret.
#[global] Instance M_mbind : MBind M := @bind.

(** A pure computation that may raise. *)
Definition lift {A} (r : result A) : M A := λ t, (r, t).

(** An external call: the world answers from the history, and the call is
    appended to it. *)
Definition call {A} (answer : trace → result A) (e : event) : M A :=
  λ t, (answer t, t ++ [e]).

Definition print (l : line) : M unit := λ t, (Ok (), t ++ [EvPrint l]).

Definition sleep (seconds : Z) : M unit := λ t, (Ok (), t ++ [EvSleep seconds]).

Definition now : M string := λ t, (Ok (datetime_now_isoformat W t), t).

(** ** [InfoAgent.__init__] *)

(** [os.getenv(name)]. *)
Definition getenv (name : string) : option string := environ W !! name.

(** Lines 31-33: the two clients are built from checked credentials. *)
Definition connect_clients (self : InfoAgent) : M InfoAgent :=
  call (λ t, new_OpenAI W t (openai_api_key self))
       (EvOpenAI (openai_api_key self)) ;;
  call (λ t, create_client W t (supabase_url self) (supabase_key self))
       (EvCreateClient (supabase_url self) (supabase_key self)) ;;
  mret self.

Definition __init__ : M InfoAgent :=
  let brave := getenv "BRAVE_API_KEY" in
  let openai := getenv "OPENAI_API_KEY" in
  let sb_url := getenv "SUPABASE_URL" in
  let sb_key := getenv "SUPABASE_KEY" in
  if negb (env_truthy brave) || negb (env_truthy openai) then
    lift (Raise (ValueError
      "API keys for Brave or OpenAI not found in environment variables"))
  else if negb (env_truthy sb_url) || negb (env_truthy sb_key) then
    lift (Raise (ValueError
      "SUPABASE_URL or SUPABASE_KEY not found in environment variables"))
  else
    connect_clients
      {| brave_api_key := default "" brave;
         openai_api_key := default "" openai;
         supabase_url := default "" sb_url;
         supabase_key := default "" sb_key |}.

(** ** [generate_search_query] *)

Definition default_prompt : string :=
  "Generate a finance-related search query for the latest news".

(** The request of lines 45-52. *)
Definition chat_request (prompt : string) : completion_request :=
  {| model := "gpt-4o";
     messages :=
       [("system",
         "You are a helpful assistant for generating finance-related search queries.");
        ("user", prompt)];
     max_tokens := 50 |}.

Definition generate_search_query (self : InfoAgent) (prompt : string)
  : M string :=
  response ← call (λ t, completions_create W t (chat_request prompt))
                  (EvCompletion (chat_request prompt));
  match choices response with
  | [] => lift (Raise IndexError)
  | c :: _ =>
      match content c with
      | Some s => mret (strip s)
      | None => lift (Raise AttributeError)
      end
  end.

(** ** [search_brave] *)

(** The URL, headers and parameters of lines 66-79. *)
Definition search_request (self : InfoAgent) (query : string) (n : Z)
  : get_request :=
  {| url := "https://api.search.brave.com/res/v1/web/search";
     headers :=
       [("Accept", "application/json");
        ("Accept-Encoding", "gzip");
        ("X-Subscription-Token", brave_api_key self)];
     params :=
       {| q := query; count := n; search_lang := "en";
          freshness := "past_week" |} |}.

Definition search_brave (self : InfoAgent) (query : string) (n : Z)
  : M json :=
  response ← call (λ t, requests_get W t (search_request self query n))
                  (EvGet (search_request self query n));
  if status_code response =? 200 then
    data ← lift (response_json response);
    web ← lift (py_get data "web" (JObject ∅));
    lift (py_get web "results" (JList []))
  else
    print (ErrorSearching (status_code response)) ;;
    mret (JList []).

(** ** [extract_news_info] *)

(** The body of the loop: the five fields, then the formatted text. *)
Definition format_item (item : json) : result string :=
  title ← py_get item "title" (JStr "");
  description ← py_get item "description" (JStr "");
  link ← py_get item "url" (JStr "");
  published ← py_get item "published" (JStr "");
  source ← py_get item "source" (JStr "");
  let formatted_text := "Title: " +:+ fmt title +:+ nl in
  let formatted_text :=
    formatted_text +:+ "Description: " +:+ fmt description +:+ nl in
  let formatted_text := formatted_text +:+ "URL: " +:+ fmt link +:+ nl in
  let formatted_text := formatted_text +:+ "Source: " +:+ fmt source +:+ nl in
  let formatted_text := formatted_text +:+ "Published: " +:+ fmt published in
  mret formatted_text.

(** The loop, with [news_items] as accumulator. *)
Fixpoint extract_loop (news_items : list string) (items : list json)
  : result (list string) :=
  match items with
  | [] => Ok news_items
  | item :: rest =>
      formatted_text ← format_item item;
      extract_loop (news_items ++ [formatted_text]) rest
  end.

Definition extract_news_info (search_results : json) : result (list string) :=
  items ← py_iter search_results;
  extract_loop [] items.

(** ** [store_in_supabase] *)

(** [hasattr(result, 'data') and result.data]. *)
Definition has_payload (result : APIResponse) : bool :=
  match data result with
  | Some d => truthy d
  | None => false
  end.

(** The row of lines 137-140. *)
Definition news_row (current_time item : string) : row :=
  {| timestamp := current_time; finance_info := item |}.

(** The loop, with [success_count] as accumulator. *)
Fixpoint store_loop (success_count : Z) (news_items : list string) : M Z :=
  match news_items with
  | [] => mret success_count
  | item :: rest =>
      current_time ← now;
      let data := news_row current_time item in
      result ← call (λ t, table_insert_execute W t "eco_info" data)
                    (EvInsert "eco_info" data);
      if has_payload result then store_loop (success_count + 1) rest
      else print (ErrorStoring result) ;; store_loop success_count rest
  end.

Definition store_in_supabase (self : InfoAgent) (news_items : list string)
  : M Z :=
  store_loop 0 news_items.

(** ** [fetch_financial_news] *)

(** The prompt of iteration [i]:
    [f"Generate ... latest news ({i+1}/{num_queries})"]. *)
Definition iteration_prompt (i num_queries : Z) : string :=
  "Generate a finance-related search query for the latest news ("
  +:+ pretty (i + 1) +:+ "/" +:+ pretty num_queries +:+ ")".

(** The body of the loop for index [i]; it gives [stored_count]. *)
Definition fetch_iteration (self : InfoAgent) (num_queries i : Z) : M Z :=
  query ← generate_search_query self (iteration_prompt i num_queries);
  print (SearchingFor query) ;;
  search_results ← search_brave self query 10;
  news_items ← lift (extract_news_info search_results);
  stored_count ← store_in_supabase self news_items;
  print (StoredItems stored_count query) ;;
  sleep 1 ;;
  mret stored_count.

(** The loop over the indices of [range(num_queries)], with
    [total_stored] as accumulator. *)
Fixpoint fetch_loop (self : InfoAgent) (num_queries : Z) (total_stored : Z)
    (indices : list Z) : M Z :=
  match indices with
  | [] => mret total_stored
  | i :: rest =>
      stored_count ← fetch_iteration self num_queries i;
      fetch_loop self num_queries (total_stored + stored_count) rest
  end.

(** [range(n)]: empty when [n] is not positive. *)
Definition range (n : Z) : list Z := Z.of_nat <$> seq 0 (Z.to_nat n).

Definition fetch_financial_news (self : InfoAgent) (num_queries : Z) : M Z :=
  fetch_loop self num_queries 0 (range num_queries).

End Runtime.

Arguments JNull {pyfloat}.
Arguments JBool {pyfloat}.
Arguments JInt {pyfloat}.
Arguments JFloat {pyfloat}.
Arguments JStr {pyfloat}.
Arguments JList {pyfloat}.
Arguments JObject {pyfloat}.
Arguments truthy {pyfloat}.
Arguments py_get {pyfloat}.
Arguments py_iter {pyfloat}.
Arguments fmt {pyfloat}.
Arguments status_code {pyfloat}.
Arguments response_json {pyfloat}.
Arguments data {pyfloat}.
Arguments Build_response {pyfloat}.
Arguments Build_APIResponse {pyfloat}.
Arguments SearchingFor {pyfloat}.
Arguments StoredItems {pyfloat}.
Arguments ErrorSearching {pyfloat}.
Arguments ErrorStoring {pyfloat}.
Arguments EvOpenAI {pyfloat}.
Arguments EvCreateClient {pyfloat}.
Arguments EvCompletion {pyfloat}.
Arguments EvGet {pyfloat}.
Arguments EvInsert {pyfloat}.
Arguments EvPrint {pyfloat}.
Arguments EvSleep {pyfloat}.
Arguments environ {pyfloat}.
Arguments new_OpenAI {pyfloat}.
Arguments create_client {pyfloat}.
Arguments completions_create {pyfloat}.
Arguments requests_get {pyfloat}.
Arguments datetime_now_isoformat {pyfloat}.
Arguments table_insert_execute {pyfloat}.
Arguments Build_World {pyfloat}.
Arguments M_ret {pyfloat}.
Arguments M_mbind {pyfloat}.
Arguments lift {pyfloat A}.
Arguments call {pyfloat A}.
Arguments print {pyfloat}.
Arguments sleep {pyfloat}.
Arguments now {pyfloat}.
Arguments getenv {pyfloat}.
Arguments connect_clients {pyfloat}.
Arguments __init__ {pyfloat}.
Arguments generate_search_query {pyfloat}.
Arguments search_brave {pyfloat}.
Arguments search_request self query n : assert.
Arguments format_item {pyfloat}.
Arguments extract_loop {pyfloat}.
Arguments extract_news_info {pyfloat}.
Arguments has_payload {pyfloat}.
Arguments store_loop {pyfloat}.
Arguments store_in_supabase {pyfloat}.
Arguments fetch_iteration {pyfloat}.
Arguments fetch_loop {pyfloat}.
Arguments fetch_financial_news {pyfloat}.

(** ** Sample worlds

    Instances of the parameters on which the methods can be run: no float
    occurs in the sample data, and every formatted value is a [str]. *)

Definition no_float : Type := Empty_set.

Definition no_float_truthy (f : no_float) : bool := match f with end.

Definition str_only (v : @json no_float) : string := "".

Definition sample_environ : gmap string string :=
  <["BRAVE_API_KEY" := "brave-token"]>
  (<["OPENAI_API_KEY" := "sk-test"]>
  (<["SUPABASE_URL" := "https://example.supabase.co"]>
  (<["SUPABASE_KEY" := "service-key"]> ∅))).

Definition sample_agent : InfoAgent :=
  {| brave_api_key := "brave-token";
     openai_api_key := "sk-test";
     supabase_url := "https://example.supabase.co";
     supabase_key := "service-key" |}.

Definition sample_hit (title link : string) : @json no_float :=
  JObject (<["title" := JStr title]> (<["url" := JStr link]> ∅)).

Definition two_hits : @json no_float :=
  JObject (<["web" := JObject (<["results" :=
    JList [sample_hit "Bitcoin rallies" "https://a.example/1";
           sample_hit "Markets today" "https://b.example/2"]]> ∅)]> ∅).

Definition no_hits : @json no_float :=
  JObject (<["web" := JObject (<["results" := JList []]> ∅)]> ∅).

(** A world given by its answers to searches and inserts; the language
    model always answers with one choice. *)
Definition sample_world
    (get : get_request → result (@response no_float))
    (insert : @trace no_float → row → result (@APIResponse no_float))
  : @World no_float :=
  {| environ := sample_environ;
     new_OpenAI := λ _ _, Ok ();
     create_client := λ _ _ _, Ok ();
     completions_create := λ _ _,
       Ok {| choices := [ {| content := Some "  bitcoin price news " |} ] |};
     requests_get := λ _ req, get req;
     datetime_now_isoformat := λ _, "2024-05-01T12:00:00";
     table_insert_execute := λ t _ r, insert t r |}.

Definition stored_reply (r : row) : @APIResponse no_float :=
  {| data :=
       Some (JList [JObject (<["finance_info" := JStr (finance_info r)]> ∅)]) |}.

Definition empty_reply : @APIResponse no_float := {| data := Some (JList []) |}.

(** Every search finds two hits and every insert stores its row. *)
Definition steady_world : @World no_float :=
  sample_world
    (λ _, Ok {| status_code := 200; response_json := Ok two_hits |})
    (λ _ r, Ok (stored_reply r)).

(** The searches answer by the query: ["down"] gives a 500, ["bare"] a
    body without ["web"], ["hollow"] a ["web"] object without ["results"],
    ["offline"] a connection error, anything else no hit. *)
Definition moody_search (req : get_request) : result (@response no_float) :=
  let query := q (params req) in
  if String.eqb query "down" then
    Ok {| status_code := 500;
          response_json := Raise (ExternalError "JSONDecodeError") |}
  else if String.eqb query "bare" then
    Ok {| status_code := 200; response_json := Ok (JObject ∅) |}
  else if String.eqb query "hollow" then
    Ok {| status_code := 200;
          response_json := Ok (JObject (<["web" := JObject ∅]> ∅)) |}
  else if String.eqb query "offline" then
    Raise (ExternalError "requests.exceptions.ConnectionError")
  else Ok {| status_code := 200; response_json := Ok no_hits |}.

Definition moody_world : @World no_float :=
  sample_world moody_search (λ _ r, Ok (stored_reply r)).

(** The first insert of a run comes back with an empty payload, the
    later ones store their row. *)
Definition first_insert_fails (t : @trace no_float) (r : row)
  : result (@APIResponse no_float) :=
  if forallb (λ e, match e with EvInsert _ _ => false | _ => true end) t
  then Ok empty_reply else Ok (stored_reply r).

Definition flaky_world : @World no_float :=
  sample_world
    (λ _, Ok {| status_code := 200; response_json := Ok two_hits |})
    first_insert_fails.

(** The network is down: searches and inserts raise. *)
Definition offline_world : @World no_float :=
  sample_world
    (λ _, Raise (ExternalError "requests.exceptions.ConnectionError"))
    (λ _ _, Raise (ExternalError "httpx.ConnectError")).

(** Searches work, inserts raise. *)
Definition no_database_world : @World no_float :=
  sample_world
    (λ _, Ok {| status_code := 200; response_json := Ok two_hits |})
    (λ _ _, Raise (ExternalError "httpx.ConnectError")).

(** The same world with one environment variable unset. *)
Definition unset_env (name : string) (W : @World no_float) : @World no_float :=
  {| environ := delete name (environ W);
     new_OpenAI := new_OpenAI W;
     create_client := create_client W;
     completions_create := completions_create W;
     requests_get := requests_get W;
     datetime_now_isoformat := datetime_now_isoformat W;
     table_insert_execute := table_insert_execute W |}.

(** ** Vocabulary of the specification *)

Section Vocabulary.

Context {pyfloat : Type}.
Variable float_truthy : pyfloat → bool.
Variable py_format : @json pyfloat → string.
Variable W : @World pyfloat.

(** The text of a field of a raw result: empty when the field is absent. *)
Definition field_text (record : gmap string (@json pyfloat)) (key : string)
  : string :=
  match record !! key with
  | Some v => fmt py_format v
  | None => ""
  end.

(** The formatted record of the specification: the five labelled lines
    Title, Description, URL, Source, Published, in this order. *)
Definition formatted_record (record : gmap string (@json pyfloat)) : string :=
  "Title: " +:+ field_text record "title" +:+ nl +:+
  "Description: " +:+ field_text record "description" +:+ nl +:+
  "URL: " +:+ field_text record "url" +:+ nl +:+
  "Source: " +:+ field_text record "source" +:+ nl +:+
  "Published: " +:+ field_text record "published".

(** What a row adds to the history: its insert, and the error line when
    the reply carries no payload. *)
Definition row_events (current_time item : string)
    (reply : @APIResponse pyfloat) : @trace pyfloat :=
  EvInsert "eco_info" (news_row current_time item)
  :: (if has_payload float_truthy reply then []
      else [EvPrint (ErrorStoring reply)]).

(** [insert_replies t items replies t']: from the history [t], the inserts
    of [items], one after the other, are answered by [replies] and none
    raises; the history is then [t']. *)
Inductive insert_replies :
  @trace pyfloat → list string → list (@APIResponse pyfloat) →
  @trace pyfloat → Prop :=
| replies_nil t : insert_replies t [] [] t
| replies_cons t item rest reply replies t' :
    table_insert_execute W t "eco_info"
      (news_row (datetime_now_isoformat W t) item) = Ok reply →
    insert_replies
      (t ++ row_events (datetime_now_isoformat W t) item reply)
      rest replies t' →
    insert_replies t (item :: rest) (reply :: replies) t'.

(** The number of replies that carry a non-empty data payload. *)
Definition stored_rows (replies : list (@APIResponse pyfloat)) : Z :=
  Z.of_nat (length (List.filter (has_payload float_truthy) replies)).

(** No insert raises, whatever the history and the row. *)
Definition inserts_answer : Prop :=
  ∀ t r, is_ok (table_insert_execute W t "eco_info" r).

(** Every insert comes back with a non-empty data payload. *)
Definition inserts_succeed : Prop :=
  ∀ t r, ∃ reply,
    table_insert_execute W t "eco_info" r = Ok reply ∧
    has_payload float_truthy reply = true.

(** The query generator answers every prompt. *)
Definition queries_generated (self : InfoAgent) : Prop :=
  ∀ prompt t, ∃ query t',
    generate_search_query W self prompt t = (Ok query, t').

(** Every search gives exactly two raw results. *)
Definition searches_give_two (self : InfoAgent) : Prop :=
  ∀ query t, ∃ a b t',
    search_brave W self query 10 t = (Ok (JList [JObject a; JObject b]), t').

(** [iterations self n indices t counts t']: from the history [t], the
    iterations of the driver for [indices] complete one after the other
    with the stored counts [counts]; the history is then [t']. *)
Inductive iterations (self : InfoAgent) (num_queries : Z) :
  list Z → @trace pyfloat → list Z → @trace pyfloat → Prop :=
| iterations_nil t : iterations self num_queries [] t [] t
| iterations_cons i rest t stored_count t1 counts t' :
    fetch_iteration float_truthy py_format W self num_queries i t
      = (Ok stored_count, t1) →
    iterations self num_queries rest t1 counts t' →
    iterations self num_queries (i :: rest) t (stored_count :: counts) t'.

(** The sum of a list of counts. *)
Definition total (counts : list Z) : Z := foldr Z.add 0 counts.

(** The number of completion requests in a history. *)
Definition completions_sent (t : @trace pyfloat) : nat :=
  length (List.filter
            (λ e, match e with EvCompletion _ => true | _ => false end) t).

(** A credential is missing when its variable is not in the environment. *)
Definition credential_missing : Prop :=
  getenv W "BRAVE_API_KEY" = None ∨ getenv W "OPENAI_API_KEY" = None ∨
  getenv W "SUPABASE_URL" = None ∨ getenv W "SUPABASE_KEY" = None.

(** The four credentials are present and not empty. *)
Definition credentials_present (self : InfoAgent) : Prop :=
  getenv W "BRAVE_API_KEY" = Some (brave_api_key self) ∧
  getenv W "OPENAI_API_KEY" = Some (openai_api_key self) ∧
  getenv W "SUPABASE_URL" = Some (supabase_url self) ∧
  getenv W "SUPABASE_KEY" = Some (supabase_key self) ∧
  brave_api_key self ≠ "" ∧ openai_api_key self ≠ "" ∧
  supabase_url self ≠ "" ∧ supabase_key self ≠ "".

End Vocabulary.

(** ** The entry point and what a history shows *)

(** The last line of the [__main__] block: [Total news items stored:
    {total}], or [Error: {e}] from the [except Exception] clause. *)
Inductive final_line : Type :=
| TotalStored (total : Z)
| ErrorLine (e : exn).

Section EntryPoint.

Context {pyfloat : Type}.
Variable float_truthy : pyfloat → bool.
Variable py_format : @json pyfloat → string.
Variable W : @World pyfloat.

(** The [__main__] block: the agent is built, the pipeline runs with the
    default [num_queries=3], and whatever is raised on the way is caught.
    [main] gives the last line printed and the history before it. *)
Definition main (t : @trace pyfloat) : final_line * @trace pyfloat :=
  match (agent ← __init__ W;
         fetch_financial_news float_truthy py_format W agent 3) t with
  | (Ok total, t') => (TotalStored total, t')
  | (Raise e, t') => (ErrorLine e, t')
  end.

(** The rows of the inserts of a history, oldest first. *)
Definition rows_inserted (t : @trace pyfloat) : list row :=
  omap (λ e, match e with EvInsert _ r => Some r | _ => None end) t.

(** The calls of a history to the language model, to the search API and
    to [time.sleep]: the events other than inserts and printed lines. *)
Definition outbound (e : @event pyfloat) : bool :=
  match e with
  | EvCompletion _ | EvGet _ | EvSleep _ => true
  | _ => false
  end.

(** The three calls of the iteration of index [i] that searches [query]. *)
Definition iteration_calls (self : InfoAgent) (num_queries : Z)
    (i : Z) (query : string) : @trace pyfloat :=
  [EvCompletion (chat_request (iteration_prompt i num_queries));
   EvGet (search_request self query 10);
   EvSleep 1].

(** A credential is unusable when its variable is unset or empty. *)
Definition unusable (name : string) : Prop :=
  getenv W name = None ∨ getenv W name = Some "".

End EntryPoint.

(** The five fields a formatted record is made of. *)
Definition five_fields : list string :=
  ["title"; "description"; "url"; "published"; "source"].

(** ** More sample worlds *)

(** A world given by its answers to completions, searches and inserts,
    each of which may look at the history. *)
Definition scripted_world
    (complete : @trace no_float → completion_request → result completion)
    (get : @trace no_float → get_request → result (@response no_float))
    (insert : @trace no_float → row → result (@APIResponse no_float))
  : @World no_float :=
  {| environ := sample_environ;
     new_OpenAI := λ _ _, Ok ();
     create_client := λ _ _ _, Ok ();
     completions_create := complete;
     requests_get := get;
     datetime_now_isoformat := λ _, "2024-05-01T12:00:00";
     table_insert_execute := λ t _ r, insert t r |}.

Definition one_choice (text : string) : result completion :=
  Ok {| choices := [ {| content := Some text |} ] |}.

Definition found_two : result (@response no_float) :=
  Ok {| status_code := 200; response_json := Ok two_hits |}.

(** Has the history no event of the kind that [kind] selects? *)
Definition none_yet (kind : @event no_float → bool) (t : @trace no_float)
  : bool :=
  forallb (λ e, negb (kind e)) t.

Definition is_insert (e : @event no_float) : bool :=
  match e with EvInsert _ _ => true | _ => false end.

Definition is_get (e : @event no_float) : bool :=
  match e with EvGet _ => true | _ => false end.

(** The language model is unreachable. *)
Definition mute_world : @World no_float :=
  scripted_world (λ _ _, Raise (ExternalError "openai.APIConnectionError"))
    (λ _ _, found_two) (λ _ r, Ok (stored_reply r)).

(** The language model answers with blanks only. *)
Definition blank_world : @World no_float :=
  scripted_world (λ _ _, one_choice "   ")
    (λ _ _, found_two) (λ _ r, Ok (stored_reply r)).

(** The first insert is stored, the later ones raise. *)
Definition one_insert_world : @World no_float :=
  scripted_world (λ _ _, one_choice "bitcoin")
    (λ _ _, found_two)
    (λ t r, if none_yet is_insert t then Ok (stored_reply r)
            else Raise (ExternalError "httpx.ConnectError")).

(** The first search finds two hits, the later ones raise. *)
Definition one_search_world : @World no_float :=
  scripted_world (λ _ _, one_choice "bitcoin")
    (λ t _, if none_yet is_get t then found_two
            else Raise (ExternalError "requests.exceptions.ConnectionError"))
    (λ _ r, Ok (stored_reply r)).

(** The searches answer by the query with bodies of unexpected shapes:
    ["garbled"] is no JSON, ["array"] is a list, ["nullweb"] has a null
    ["web"], ["text"] has a string where the results are expected. *)
Definition odd_search (req : get_request) : result (@response no_float) :=
  let query := q (params req) in
  if String.eqb query "garbled" then
    Ok {| status_code := 200;
          response_json := Raise (ExternalError "JSONDecodeError") |}
  else if String.eqb query "array" then
    Ok {| status_code := 200; response_json := Ok (JList []) |}
  else if String.eqb query "nullweb" then
    Ok {| status_code := 200;
          response_json := Ok (JObject (<["web" := JNull]> ∅)) |}
  else
    Ok {| status_code := 200;
          response_json :=
            Ok (JObject (<["web" :=
                  JObject (<["results" := JStr "none"]> ∅)]> ∅)) |}.

Definition odd_world : @World no_float :=
  sample_world odd_search (λ _ r, Ok (stored_reply r)).

(** The same world with constructors of the clients that answer as given. *)
Definition with_constructors
    (openai : result unit) (supabase : result unit) (W : @World no_float)
  : @World no_float :=
  {| environ := environ W;
     new_OpenAI := λ _ _, openai;
     create_client := λ _ _ _, supabase;
     completions_create := completions_create W;
     requests_get := requests_get W;
     datetime_now_isoformat := datetime_now_isoformat W;
     table_insert_execute := table_insert_execute W |}.

(** The same world with one environment variable set. *)
Definition set_env (name value : string) (W : @World no_float)
  : @World no_float :=
  {| environ := <[name := value]> (environ W);
     new_OpenAI := new_OpenAI W;
     create_client := create_client W;
     completions_create := completions_create W;
     requests_get := requests_get W;
     datetime_now_isoformat := datetime_now_isoformat W;
     table_insert_execute := table_insert_execute W |}.

(** ** Runs of the pipeline, step by step *)

Section Runs.

Context {pyfloat : Type}.
Variable float_truthy : pyfloat → bool.
Variable py_format : @json pyfloat → string.
Variable W : @World pyfloat.

(** [pipeline_steps self n indices t counts t']: from the history [t], for
    each index of [indices] in turn, the query generator gives a query, the
    search client gives results for it, the formatter formats them and the
    storage sink stores the formatted records; [counts] are the counts the
    storage sink returned, one per index, and [t'] is the history after the
    last sleep. *)
Inductive pipeline_steps (self : InfoAgent) (num_queries : Z) :
  list Z → @trace pyfloat → list Z → @trace pyfloat → Prop :=
| pipeline_done t : pipeline_steps self num_queries [] t [] t
| pipeline_step i rest t query t1 search_results t2 news_items
    stored_count t3 counts t' :
    generate_search_query W self (iteration_prompt i num_queries) t
      = (Ok query, t1) →
    search_brave W self query 10 (t1 ++ [EvPrint (SearchingFor query)])
      = (Ok search_results, t2) →
    extract_news_info py_format search_results = Ok news_items →
    store_in_supabase float_truthy W self news_items t2
      = (Ok stored_count, t3) →
    pipeline_steps self num_queries rest
      (t3 ++ [EvPrint (StoredItems stored_count query); EvSleep 1])
      counts t' →
    pipeline_steps self num_queries (i :: rest) t (stored_count :: counts) t'.

(** The history after an iteration whose search came back with the
    error status [status]: the two lines printed, no insert, the sleep. *)
Definition after_failed_search (self : InfoAgent) (query : string)
    (status : Z) (t1 : @trace pyfloat) : @trace pyfloat :=
  t1 ++ [EvPrint (SearchingFor query);
         EvGet (search_request self query 10);
         EvPrint (ErrorSearching status);
         EvPrint (StoredItems 0 query);
         EvSleep 1].

End Runs.

(** The list of the two hits that [two_hits] holds. *)
Definition two_hits_list : @json no_float :=
  JList [sample_hit "Bitcoin rallies" "https://a.example/1";
         sample_hit "Markets today" "https://b.example/2"].

(** The number of events of a kind in a history. *)
Definition count_of (kind : @event no_float → bool) (t : @trace no_float)
  : nat :=
  length (List.filter kind t).

(** The first search comes back with a 503, the later ones find two
    hits. *)
Definition slow_start_world : @World no_float :=
  scripted_world (λ _ _, one_choice "bitcoin")
    (λ t _, if none_yet is_get t
            then Ok {| status_code := 503;
                       response_json := Raise (ExternalError "JSONDecodeError") |}
            else found_two)
    (λ _ r, Ok (stored_reply r)).

(** The first three inserts are stored, the later ones raise. *)
Definition three_inserts_world : @World no_float :=
  scripted_world (λ _ _, one_choice "bitcoin")
    (λ _ _, found_two)
    (λ t r, if (count_of is_insert t <? 3)%nat then Ok (stored_reply r)
            else Raise (ExternalError "httpx.ConnectError")).

(** Unfolding of the monad's operations. *)
Ltac run :=
  unfold mbind, M_mbind, bind, mret, M_ret, ret, lift, call, print, sleep, now
    in *; cbn beta iota.

(** * Properties *)

(** ** Trimming *)

Lemma append_cons (c : ascii) (a b : string) :
  String c a +:+ b = String c (a +:+ b).
Proof. reflexivity. Qed.

Lemma append_nil_l (a : string) : "" +:+ a = a.
Proof. reflexivity. Qed.

Lemma lstrip_split (s : string) :
  ∃ l, s = l +:+ lstrip s ∧ all_space l = true.
Proof.
  induction s as [|c s [l [Hs Hl]]]; simpl.
  - by exists "".
  - destruct (is_space c) eqn:Hc.
    + exists (String c l). simpl. rewrite Hc, Hl, append_cons.
      split; [congruence|done].
    + by exists "".
Qed.

Lemma lstrip_first (s : string) (c : ascii) :
  first_char (lstrip s) = Some c → is_space c = false.
Proof.
  induction s as [|a s IH]; simpl; [done|].
  destruct (is_space a) eqn:Ha; [done|].
  simpl. by intros [= <-].
Qed.

Lemma rstrip_split (s : string) :
  ∃ r, s = rstrip s +:+ r ∧ all_space r = true.
Proof.
  induction s as [|c s [r [Hs Hr]]]; simpl.
  - by exists "".
  - destruct (rstrip s) as [|a u] eqn:Hu.
    + destruct (is_space c) eqn:Hc.
      * exists (String c r). rewrite append_nil_l in *. simpl.
        rewrite Hc, Hr. split; [congruence|done].
      * exists r. rewrite append_nil_l in Hs. rewrite append_cons, append_nil_l.
        split; [congruence|done].
    + exists r. rewrite append_cons. split; [congruence|done].
Qed.

Lemma rstrip_last (s : string) (c : ascii) :
  last_char (rstrip s) = Some c → is_space c = false.
Proof.
  induction s as [|a s IH]; simpl; [done|].
  destruct (rstrip s) as [|b u] eqn:Hu.
  - destruct (is_space a) eqn:Ha; simpl; [done|]. by intros [= <-].
  - simpl. exact IH.
Qed.

Lemma rstrip_first (s : string) (c : ascii) :
  (∀ a, first_char s = Some a → is_space a = false) →
  first_char (rstrip s) = Some c → is_space c = false.
Proof.
  destruct s as [|a s]; simpl; [done|].
  intros Hfirst. specialize (Hfirst a eq_refl).
  destruct (rstrip s); [rewrite Hfirst|]; simpl; by intros [= <-].
Qed.

Lemma append_assoc (a b c : string) : (a +:+ b) +:+ c = a +:+ (b +:+ c).
Proof.
  induction a as [|x a IH]; [done|]. by rewrite !append_cons, IH.
Qed.

Lemma strip_split (s : string) :
  ∃ l r, s = l +:+ strip s +:+ r ∧ all_space l = true ∧ all_space r = true.
Proof.
  destruct (lstrip_split s) as [l [Hs Hl]].
  destruct (rstrip_split (lstrip s)) as [r [Hu Hr]].
  exists l, r. unfold strip. by rewrite <- Hu.
Qed.

Lemma strip_trimmed (s : string) : trimmed (strip s).
Proof.
  split; intros c Hc.
  - eapply rstrip_first; [|exact Hc]. apply lstrip_first.
  - by eapply rstrip_last.
Qed.

Section Properties.

Context {pyfloat : Type}.
Variable float_truthy : pyfloat → bool.
Variable py_format : @json pyfloat → string.
Variable W : @World pyfloat.

Implicit Types (t : @trace pyfloat) (self : InfoAgent).
Implicit Types (record : gmap string (@json pyfloat)).

(** ** The formatter *)

Lemma py_get_object record key dflt :
  py_get (JObject record) key dflt
  = Ok (match record !! key with Some v => v | None => dflt end).
Proof. reflexivity. Qed.

Lemma fmt_field record key :
  fmt py_format (match record !! key with Some v => v | None => JStr "" end)
  = field_text py_format record key.
Proof. unfold field_text. by destruct (record !! key). Qed.

Lemma format_item_object record :
  format_item py_format (JObject record)
  = Ok (formatted_record py_format record).
Proof.
  unfold format_item, formatted_record. rewrite !py_get_object.
  unfold mbind, result_mbind, mret, result_ret. cbn [result_bind].
  rewrite !fmt_field. f_equal. by rewrite !append_assoc.
Qed.

Lemma extract_loop_objects (records : list (gmap string (@json pyfloat)))
    (news_items : list string) :
  extract_loop py_format news_items (JObject <$> records)
  = Ok (news_items ++ (formatted_record py_format <$> records)).
Proof.
  revert news_items.
  induction records as [|record records IH]; intros news_items.
  - cbn. by rewrite app_nil_r.
  - rewrite !fmap_cons. cbn [extract_loop].
    rewrite format_item_object.
    unfold mbind, result_mbind. cbn [result_bind].
    rewrite IH. by rewrite <- app_assoc.
Qed.

Lemma extract_news_info_objects_eq
    (records : list (gmap string (@json pyfloat))) :
  extract_news_info py_format (JList (JObject <$> records))
  = Ok (formatted_record py_format <$> records).
Proof.
  unfold extract_news_info. cbn [py_iter].
  unfold mbind, result_mbind. cbn [result_bind].
  by rewrite extract_loop_objects.
Qed.

(** C1.  The formatter is total on sequences of raw-result mappings: it
    gives one formatted record per input record, in input order, each made
    of the five labelled lines Title, Description, URL, Source, Published,
    and an absent field leaves its line with an empty value. *)
Theorem extract_news_info_one_per_record
    (records : list (gmap string (@json pyfloat))) :
  extract_news_info py_format (JList (JObject <$> records))
    = Ok (formatted_record py_format <$> records)
  ∧ length (formatted_record py_format <$> records) = length records
  ∧ ∀ record key, record !! key = None → field_text py_format record key = "".
Proof.
  split; [|split].
  - apply extract_news_info_objects_eq.
  - apply length_fmap.
  - intros record key Hkey. unfold field_text. by rewrite Hkey.
Qed.

(** C7.  On the empty sequence the formatter gives the empty sequence, and
    the storage sink gives 0 and leaves the history as it was: no insert is
    issued. *)
Theorem empty_input_formats_and_stores_nothing self t :
  extract_news_info py_format (JList []) = Ok []
  ∧ store_in_supabase float_truthy W self [] t = (Ok 0, t).
Proof. split; reflexivity. Qed.

(** ** The query generator *)

(** C6.  The query generator gives the trimmed content of the first
    choice of the completion; it raises what the remote call raises, and it
    raises when the completion has no choice: no query is made up locally. *)
Theorem generate_search_query_first_choice self (prompt : string) t :
  match completions_create W t (chat_request prompt) with
  | Raise e =>
      generate_search_query W self prompt t
      = (Raise e, t ++ [EvCompletion (chat_request prompt)])
  | Ok completion =>
      match choices completion with
      | [] =>
          generate_search_query W self prompt t
          = (Raise IndexError, t ++ [EvCompletion (chat_request prompt)])
      | first :: _ =>
          match content first with
          | Some text =>
              generate_search_query W self prompt t
              = (Ok (strip text), t ++ [EvCompletion (chat_request prompt)])
              ∧ trimmed (strip text)
              ∧ ∃ l r, text = l +:+ strip text +:+ r
                       ∧ all_space l = true ∧ all_space r = true
          | None =>
              generate_search_query W self prompt t
              = (Raise AttributeError,
                 t ++ [EvCompletion (chat_request prompt)])
          end
      end
  end.
Proof.
  unfold generate_search_query. run.
  destruct (completions_create W t (chat_request prompt)) as [completion|e];
    [|done].
  destruct (choices completion) as [|first others]; [done|].
  destruct (content first) as [text|]; [|done].
  split; [done|]. split; [apply strip_trimmed | apply strip_split].
Qed.

(** ** The search client *)

Lemma search_brave_answered self (query : string) (n : Z) t resp :
  requests_get W t (search_request self query n) = Ok resp →
  search_brave W self query n t
  = if status_code resp =? 200 then
      (data ← response_json resp;
       web ← py_get data "web" (JObject ∅);
       py_get web "results" (JList []),
       t ++ [EvGet (search_request self query n)])
    else
      (Ok (JList []),
       t ++ [EvGet (search_request self query n)]
         ++ [EvPrint (ErrorSearching (status_code resp))]).
Proof.
  intros Hget. unfold search_brave. run. rewrite Hget.
  destruct (status_code resp =? 200); [|by rewrite <- app_assoc].
  destruct (response_json resp) as [body|e]; [|done]. cbn.
  destruct (py_get body "web" (JObject ∅)); done.
Qed.

Lemma search_brave_raised self (query : string) (n : Z) t e :
  requests_get W t (search_request self query n) = Raise e →
  search_brave W self query n t
  = (Raise e, t ++ [EvGet (search_request self query n)]).
Proof. intros Hget. unfold search_brave. run. by rewrite Hget. Qed.

(** C3.  A search whose response has a status other than 200, so any
    non-success status, gives the empty sequence and does not raise; the
    value is the one of a successful search without matches. *)
Theorem search_brave_error_status_empty self (query : string) (n : Z) t resp :
  requests_get W t (search_request self query n) = Ok resp →
  status_code resp ≠ 200 →
  search_brave W self query n t
  = (Ok (JList []),
     t ++ [EvGet (search_request self query n)]
       ++ [EvPrint (ErrorSearching (status_code resp))])
  ∧ ∀ (query' : string) (n' : Z) t' resp',
      requests_get W t' (search_request self query' n') = Ok resp' →
      status_code resp' = 200 →
      response_json resp'
        = Ok (JObject (<["web" := JObject (<["results" := JList []]> ∅)]> ∅)) →
      fst (search_brave W self query' n' t')
      = fst (search_brave W self query n t).
Proof.
  intros Hget Hstatus.
  assert (Hsearch : search_brave W self query n t
    = (Ok (JList []),
       t ++ [EvGet (search_request self query n)]
         ++ [EvPrint (ErrorSearching (status_code resp))])).
  { rewrite (search_brave_answered _ _ _ _ _ Hget).
    by destruct (Z.eqb_spec (status_code resp) 200). }
  split; [done|].
  intros query' n' t' resp' Hget' Hstatus' Hbody.
  rewrite Hsearch, (search_brave_answered _ _ _ _ _ Hget').
  rewrite Hstatus', Hbody. cbn.
  by rewrite !lookup_insert_eq.
Qed.

(** C10.  A search whose response has status 200 and whose body is an
    object without ["web"], or with a ["web"] object without ["results"],
    gives the empty sequence and does not raise. *)
Theorem search_brave_missing_results_empty self (query : string) (n : Z) t resp
    (body : gmap string (@json pyfloat)) :
  requests_get W t (search_request self query n) = Ok resp →
  status_code resp = 200 →
  response_json resp = Ok (JObject body) →
  (body !! "web" = None
   ∨ ∃ web, body !! "web" = Some (JObject web) ∧ web !! "results" = None) →
  search_brave W self query n t
  = (Ok (JList []), t ++ [EvGet (search_request self query n)]).
Proof.
  intros Hget Hstatus Hbody Hweb.
  rewrite (search_brave_answered _ _ _ _ _ Hget), Hstatus, Hbody. cbn.
  destruct Hweb as [Hnone|[web [Hsome Hresults]]].
  - rewrite Hnone. cbn. by rewrite lookup_empty.
  - rewrite Hsome. cbn. by rewrite Hresults.
Qed.

(** A ["web"] entry that is not an object makes the search raise. *)
Lemma search_brave_web_not_object self (query : string) (n : Z) t resp
    (body : gmap string (@json pyfloat)) :
  requests_get W t (search_request self query n) = Ok resp →
  status_code resp = 200 →
  response_json resp = Ok (JObject body) →
  body !! "web" = Some JNull →
  fst (search_brave W self query n t) = Raise AttributeError.
Proof.
  intros Hget Hstatus Hbody Hweb.
  rewrite (search_brave_answered _ _ _ _ _ Hget), Hstatus, Hbody. cbn.
  by rewrite Hweb.
Qed.

(** ** The storage sink *)

Lemma store_loop_step (success_count : Z) (item : string)
    (rest : list string) t reply :
  table_insert_execute W t "eco_info"
    (news_row (datetime_now_isoformat W t) item) = Ok reply →
  store_loop float_truthy W success_count (item :: rest) t
  = store_loop float_truthy W
      (success_count + if has_payload float_truthy reply then 1 else 0)
      rest (t ++ row_events float_truthy (datetime_now_isoformat W t) item reply).
Proof.
  intros Hinsert. cbn [store_loop]. run. rewrite Hinsert.
  unfold row_events.
  destruct (has_payload float_truthy reply).
  - done.
  - rewrite Z.add_0_r.
    by replace (t ++ [EvInsert "eco_info"
                        (news_row (datetime_now_isoformat W t) item);
                      EvPrint (ErrorStoring reply)])
      with ((t ++ [EvInsert "eco_info"
                     (news_row (datetime_now_isoformat W t) item)])
            ++ [EvPrint (ErrorStoring reply)])
      by (by rewrite <- app_assoc).
Qed.

Lemma store_loop_raised (success_count : Z) (item : string)
    (rest : list string) t e :
  table_insert_execute W t "eco_info"
    (news_row (datetime_now_isoformat W t) item) = Raise e →
  store_loop float_truthy W success_count (item :: rest) t
  = (Raise e,
     t ++ [EvInsert "eco_info" (news_row (datetime_now_isoformat W t) item)]).
Proof. intros Hinsert. cbn [store_loop]. run. by rewrite Hinsert. Qed.

Lemma store_loop_replies (items : list string) :
  ∀ (success_count : Z) t replies t',
    insert_replies float_truthy W t items replies t' →
    store_loop float_truthy W success_count items t
    = (Ok (success_count + stored_rows float_truthy replies), t').
Proof.
  induction items as [|item rest IH]; intros success_count t replies t' Hrun;
    inversion Hrun as [|? ? ? reply others ? Hreply Hrest]; subst.
  - cbn. unfold stored_rows. cbn. by rewrite Z.add_0_r.
  - rewrite (store_loop_step _ _ _ _ _ Hreply).
    rewrite (IH _ _ _ _ Hrest). do 2 f_equal.
    unfold stored_rows. cbn [List.filter].
    destruct (has_payload float_truthy reply); cbn [length]; lia.
Qed.

(** C2.  When the inserts of a batch are answered by [replies], the
    storage sink goes through the whole batch and returns the number of
    replies that carry a non-empty data payload: a row is counted if and
    only if its reply has one. *)
Theorem store_in_supabase_counts_payloads self (items : list string) t
    (replies : list (@APIResponse pyfloat)) t' :
  insert_replies float_truthy W t items replies t' →
  store_in_supabase float_truthy W self items t
  = (Ok (stored_rows float_truthy replies), t').
Proof.
  intros Hrun. unfold store_in_supabase.
  by rewrite (store_loop_replies _ _ _ _ _ Hrun).
Qed.

Lemma insert_replies_exist (items : list string) :
  inserts_answer W →
  ∀ t, ∃ replies t',
    insert_replies float_truthy W t items replies t'
    ∧ length replies = length items.
Proof.
  intros Hanswer. induction items as [|item rest IH]; intros t.
  - exists [], t. split; [constructor|done].
  - destruct (Hanswer t (news_row (datetime_now_isoformat W t) item))
      as [reply Hreply].
    destruct (IH (t ++ row_events float_truthy
                         (datetime_now_isoformat W t) item reply))
      as [replies [t' [Hrun Hlen]]].
    exists (reply :: replies), t'. split; [by econstructor|].
    cbn. by rewrite Hlen.
Qed.

Lemma stored_rows_bounds (replies : list (@APIResponse pyfloat)) :
  0 ≤ stored_rows float_truthy replies ≤ Z.of_nat (length replies).
Proof.
  unfold stored_rows.
  pose proof (List.filter_length_le (has_payload float_truthy) replies).
  lia.
Qed.

(** C9.  When no insert raises, the storage sink returns a count between 0
    and the length of its input, whatever the replies are. *)
Theorem store_in_supabase_count_bounded self (items : list string) t :
  inserts_answer W →
  ∃ (stored : Z) t',
    store_in_supabase float_truthy W self items t = (Ok stored, t')
    ∧ 0 ≤ stored ≤ Z.of_nat (length items).
Proof.
  intros Hanswer.
  destruct (insert_replies_exist items Hanswer t) as [replies [t' [Hrun Hlen]]].
  exists (stored_rows float_truthy replies), t'. split.
  - unfold store_in_supabase. by rewrite (store_loop_replies _ _ _ _ _ Hrun).
  - rewrite <- Hlen. apply stored_rows_bounds.
Qed.

(** ** The pipeline driver *)

Lemma completions_sent_app t (new : @trace pyfloat) :
  completions_sent (t ++ new)
  = (completions_sent t + completions_sent new)%nat.
Proof. unfold completions_sent. by rewrite List.filter_app, length_app. Qed.

Lemma generate_search_query_trace self (prompt : string) t
    (r : result string) t' :
  generate_search_query W self prompt t = (r, t') →
  t' = t ++ [EvCompletion (chat_request prompt)].
Proof.
  unfold generate_search_query. run.
  destruct (completions_create W t (chat_request prompt)) as [completion|e];
    [|congruence].
  destruct (choices completion) as [|first others]; [congruence|].
  destruct (content first); congruence.
Qed.

Lemma search_brave_trace self (query : string) (n : Z) t
    (r : result (@json pyfloat)) t' :
  search_brave W self query n t = (r, t') →
  completions_sent t' = completions_sent t.
Proof.
  destruct (requests_get W t (search_request self query n)) as [resp|e]
    eqn:Hget.
  - rewrite (search_brave_answered _ _ _ _ _ Hget).
    destruct (status_code resp =? 200); intros [= _ <-];
      rewrite !completions_sent_app; cbn; lia.
  - rewrite (search_brave_raised _ _ _ _ _ Hget). intros [= _ <-].
    rewrite completions_sent_app. cbn. lia.
Qed.

Lemma store_loop_trace (items : list string) :
  ∀ (success_count : Z) t (r : result Z) t',
    store_loop float_truthy W success_count items t = (r, t') →
    completions_sent t' = completions_sent t.
Proof.
  induction items as [|item rest IH]; intros success_count t r t'.
  - cbn. by intros [= _ <-].
  - destruct (table_insert_execute W t "eco_info"
                (news_row (datetime_now_isoformat W t) item))
      as [reply|e] eqn:Hinsert.
    + rewrite (store_loop_step _ _ _ _ _ Hinsert). intros Hrest.
      rewrite (IH _ _ _ _ Hrest), completions_sent_app. unfold row_events.
      destruct (has_payload float_truthy reply); cbn; lia.
    + rewrite (store_loop_raised _ _ _ _ _ Hinsert). intros [= _ <-].
      rewrite completions_sent_app. cbn. lia.
Qed.

(** The steps of one iteration, each with the history it starts from. *)
Lemma fetch_iteration_steps self (num_queries i : Z) t :
  fetch_iteration float_truthy py_format W self num_queries i t
  = match generate_search_query W self (iteration_prompt i num_queries) t with
    | (Raise e, t1) => (Raise e, t1)
    | (Ok query, t1) =>
        match search_brave W self query 10
                (t1 ++ [EvPrint (SearchingFor query)]) with
        | (Raise e, t2) => (Raise e, t2)
        | (Ok search_results, t2) =>
            match extract_news_info py_format search_results with
            | Raise e => (Raise e, t2)
            | Ok news_items =>
                match store_in_supabase float_truthy W self news_items t2 with
                | (Raise e, t3) => (Raise e, t3)
                | (Ok stored_count, t3) =>
                    (Ok stored_count,
                     t3 ++ [EvPrint (StoredItems stored_count query);
                            EvSleep 1])
                end
            end
        end
    end.
Proof.
  unfold fetch_iteration. run.
  destruct (generate_search_query W self _ t) as [[query|e] t1]; [|done].
  destruct (search_brave W self query 10 _) as [[results|e] t2]; [|done].
  destruct (extract_news_info py_format results) as [news_items|e]; [|done].
  destruct (store_in_supabase float_truthy W self news_items t2)
    as [[stored|e] t3]; [|done].
  by rewrite <- app_assoc.
Qed.

Lemma fetch_iteration_trace self (num_queries i : Z) t (stored : Z) t' :
  fetch_iteration float_truthy py_format W self num_queries i t
    = (Ok stored, t') →
  completions_sent t' = S (completions_sent t).
Proof.
  rewrite fetch_iteration_steps.
  destruct (generate_search_query W self _ t) as [[query|e] t1] eqn:Hquery;
    [|done].
  apply generate_search_query_trace in Hquery as ->.
  destruct (search_brave W self query 10 _) as [[results|e] t2] eqn:Hsearch;
    [|done].
  apply search_brave_trace in Hsearch.
  destruct (extract_news_info py_format results) as [news_items|e]; [|done].
  destruct (store_in_supabase float_truthy W self news_items t2)
    as [[count|e] t3] eqn:Hstore; [|done].
  apply store_loop_trace in Hstore. intros [= _ <-].
  rewrite completions_sent_app, Hstore, Hsearch, !completions_sent_app.
  cbn. lia.
Qed.

Lemma fetch_loop_iterations self (num_queries : Z) (indices : list Z) :
  ∀ (total_stored : Z) t (counts : list Z) t',
    iterations float_truthy py_format W self num_queries indices t counts t' →
    fetch_loop float_truthy py_format W self num_queries total_stored indices t
      = (Ok (total_stored + total counts), t')
    ∧ length counts = length indices
    ∧ completions_sent t' = (completions_sent t + length indices)%nat.
Proof.
  induction indices as [|i rest IH]; intros total_stored t counts t' Hrun;
    inversion Hrun as [|? ? ? stored t1 others ? Hstep Hrest]; subst.
  - cbn. rewrite Z.add_0_r. split_and!; [done|done|lia].
  - destruct (IH (total_stored + stored) _ _ _ Hrest) as (Hloop & Hlen & Hsent).
    cbn [fetch_loop]. unfold mbind, M_mbind, bind.
    rewrite Hstep, Hloop, Hsent, (fetch_iteration_trace _ _ _ _ _ _ Hstep).
    change (total (stored :: others)) with (stored + total others).
    cbn [length]. rewrite Hlen. split_and!; [do 2 f_equal; lia|done|lia].
Qed.

Lemma range_length (n : Z) : length (range n) = Z.to_nat n.
Proof. unfold range. by rewrite length_fmap, length_seq. Qed.

Lemma store_loop_all_succeed (items : list string) :
  inserts_succeed float_truthy W →
  ∀ (success_count : Z) t, ∃ t',
    store_loop float_truthy W success_count items t
    = (Ok (success_count + Z.of_nat (length items)), t').
Proof.
  intros Hsucceed. induction items as [|item rest IH]; intros success_count t.
  - exists t. cbn. by rewrite Z.add_0_r.
  - destruct (Hsucceed t (news_row (datetime_now_isoformat W t) item))
      as (reply & Hreply & Hpayload).
    rewrite (store_loop_step _ _ _ _ _ Hreply), Hpayload.
    destruct (IH (success_count + 1)
                 (t ++ row_events float_truthy
                         (datetime_now_isoformat W t) item reply))
      as [t' Hrest].
    exists t'. rewrite Hrest. do 2 f_equal. cbn [length]. lia.
Qed.

Lemma fetch_iteration_two_hits self (num_queries i : Z) t :
  queries_generated W self →
  searches_give_two W self →
  inserts_succeed float_truthy W →
  ∃ t', fetch_iteration float_truthy py_format W self num_queries i t
        = (Ok 2, t').
Proof.
  intros Hquery Hsearch Hstore. rewrite fetch_iteration_steps.
  destruct (Hquery (iteration_prompt i num_queries) t) as (query & t1 & ->).
  destruct (Hsearch query (t1 ++ [EvPrint (SearchingFor query)]))
    as (a & b & t2 & ->).
  change (JList [JObject a; JObject b])
    with (@JList pyfloat (JObject <$> [a; b])).
  rewrite extract_news_info_objects_eq.
  unfold store_in_supabase.
  destruct (store_loop_all_succeed
              (formatted_record py_format <$> [a; b]) Hstore 0 t2)
    as [t3 ->].
  by eexists.
Qed.

Lemma fetch_loop_raised self (num_queries total_stored i : Z) (rest : list Z)
    t e t' :
  fetch_iteration float_truthy py_format W self num_queries i t
    = (Raise e, t') →
  fetch_loop float_truthy py_format W self num_queries total_stored
    (i :: rest) t = (Raise e, t').
Proof.
  intros Hstep. cbn [fetch_loop]. unfold mbind, M_mbind, bind.
  by rewrite Hstep.
Qed.

Lemma range_pos (n : Z) : 0 < n → ∃ rest, range n = 0 :: rest.
Proof.
  intros Hn. unfold range.
  destruct (Z.to_nat n) as [|k] eqn:Hk; [lia|]. by eexists.
Qed.

(** ** Start-up *)

Lemma env_truthy_present (s : string) : s ≠ "" → env_truthy (Some s) = true.
Proof.
  intros Hs. unfold env_truthy.
  destruct (String.eqb_spec s ""); [done|reflexivity].
Qed.

(** C8.  The constructor raises a [ValueError] as soon as one of the four
    credentials is missing from the environment, and goes past its two
    checks, on to building the clients, when the four are present and not
    empty. *)
Theorem init_checks_credentials t :
  (credential_missing W →
   ∃ msg, __init__ W t = (Raise (ValueError msg), t))
  ∧ (∀ self, credentials_present W self →
       __init__ W t = connect_clients W self t).
Proof.
  split.
  - intros Hmissing. unfold __init__.
    destruct (env_truthy (getenv W "BRAVE_API_KEY")) eqn:Hbrave;
      cbn [negb orb]; [|by eexists].
    destruct (env_truthy (getenv W "OPENAI_API_KEY")) eqn:Hopenai;
      cbn [negb orb]; [|by eexists].
    destruct (env_truthy (getenv W "SUPABASE_URL")) eqn:Hurl;
      cbn [negb orb]; [|by eexists].
    destruct (env_truthy (getenv W "SUPABASE_KEY")) eqn:Hkey;
      cbn [negb orb]; [|by eexists].
    destruct Hmissing as [H|[H|[H|H]]]; rewrite H in *; done.
  - intros self (Hbrave & Hopenai & Hurl & Hkey & Hb & Ho & Hu & Hk).
    unfold __init__. rewrite Hbrave, Hopenai, Hurl, Hkey.
    rewrite !env_truthy_present by done. cbn [negb orb default].
    by destruct self.
Qed.

End Properties.

(** * The theorems on sample worlds *)

(** Two raw results formatted, and an absent field read as the empty
    text. *)
Lemma extract_news_info_one_per_record_witness :
  extract_news_info str_only
    (JList [sample_hit "Bitcoin rallies" "https://a.example/1";
            sample_hit "Markets today" "https://b.example/2"])
  = Ok [formatted_record str_only
          (<["title" := JStr "Bitcoin rallies"]>
             (<["url" := JStr "https://a.example/1"]> ∅));
        formatted_record str_only
          (<["title" := JStr "Markets today"]>
             (<["url" := JStr "https://b.example/2"]> ∅))]
  ∧ field_text str_only (<["title" := JStr "Markets today"]> ∅) "source" = "".
Proof.
  split.
  - exact (proj1 (extract_news_info_one_per_record str_only
      [<["title" := JStr "Bitcoin rallies"]>
         (<["url" := JStr "https://a.example/1"]> ∅);
       <["title" := JStr "Markets today"]>
         (<["url" := JStr "https://b.example/2"]> ∅)])).
  - apply (proj2 (proj2 (extract_news_info_one_per_record str_only []))).
    reflexivity.
Defined.

(** A 500 gives the empty sequence, as a search without hits does. *)
Lemma search_brave_error_status_empty_witness :
  fst (search_brave moody_world sample_agent "down" 10 []) = Ok (JList [])
  ∧ fst (search_brave moody_world sample_agent "quiet" 10 [])
    = fst (search_brave moody_world sample_agent "down" 10 []).
Proof.
  destruct (search_brave_error_status_empty moody_world sample_agent "down" 10
              []
              {| status_code := 500;
                 response_json := Raise (ExternalError "JSONDecodeError") |}
              eq_refl ltac:(discriminate)) as [Hdown Hsame].
  split.
  - by rewrite Hdown.
  - apply (Hsame "quiet" 10 []
             {| status_code := 200; response_json := Ok no_hits |});
      reflexivity.
Defined.

(** A body with a ["web"] object that has no ["results"]. *)
Lemma search_brave_missing_results_empty_witness :
  search_brave moody_world sample_agent "hollow" 10 []
  = (Ok (JList []), [EvGet (search_request sample_agent "hollow" 10)]).
Proof.
  apply (search_brave_missing_results_empty moody_world sample_agent
           "hollow" 10 []
           {| status_code := 200;
              response_json := Ok (JObject (<["web" := JObject ∅]> ∅)) |}
           (<["web" := JObject ∅]> ∅));
    [reflexivity..|].
  right. exists ∅. split; reflexivity.
Defined.

(** A batch of two rows, the first insert without payload, the second
    stored: the count is 1. *)
Lemma store_in_supabase_counts_payloads_witness :
  fst (store_in_supabase no_float_truthy flaky_world sample_agent
         ["first"; "second"] []) = Ok 1.
Proof.
  assert (Hrun : insert_replies no_float_truthy flaky_world []
            ["first"; "second"]
            [empty_reply;
             stored_reply (news_row "2024-05-01T12:00:00" "second")]
            [EvInsert "eco_info" (news_row "2024-05-01T12:00:00" "first");
             EvPrint (ErrorStoring empty_reply);
             EvInsert "eco_info" (news_row "2024-05-01T12:00:00" "second")]).
  { eapply replies_cons; [reflexivity|].
    eapply replies_cons; [reflexivity|]. apply replies_nil. }
  by rewrite (store_in_supabase_counts_payloads no_float_truthy flaky_world
                sample_agent _ _ _ _ Hrun).
Defined.

(** Three rows, in a world whose inserts all answer. *)
Lemma store_in_supabase_count_bounded_witness :
  inserts_answer steady_world
  ∧ ∃ (stored : Z) t',
      store_in_supabase no_float_truthy steady_world sample_agent
        ["a"; "b"; "c"] [] = (Ok stored, t')
      ∧ 0 ≤ stored ≤ 3.
Proof.
  assert (Hanswer : inserts_answer steady_world).
  { intros t r. by eexists. }
  split; [exact Hanswer|].
  exact (store_in_supabase_count_bounded no_float_truthy steady_world
           sample_agent ["a"; "b"; "c"] [] Hanswer).
Defined.

(** The four credentials set; then the database key unset. *)
Lemma init_checks_credentials_witness :
  __init__ steady_world [] = connect_clients steady_world sample_agent []
  ∧ ∃ msg,
      __init__ (unset_env "SUPABASE_KEY" steady_world) []
      = (Raise (ValueError msg), []).
Proof.
  split.
  - apply (proj2 (init_checks_credentials steady_world [])).
    split_and!; (reflexivity || discriminate).
  - apply (proj1 (init_checks_credentials
                    (unset_env "SUPABASE_KEY" steady_world) [])).
    do 3 right. reflexivity.
Defined.

(** C4, as stated, fails: with the network down the search client raises
    where the claim wants an empty sequence, the storage sink raises where
    the claim wants the row skipped, and the exception ends the run of the
    driver. *)
Lemma network_exception_not_caught :
  requests_get offline_world []
    (search_request sample_agent "bitcoin price news" 10)
  = Raise (ExternalError "requests.exceptions.ConnectionError")
  ∧ fst (search_brave offline_world sample_agent "bitcoin price news" 10 [])
    ≠ Ok (JList [])
  ∧ fst (search_brave offline_world sample_agent "bitcoin price news" 10 [])
    = Raise (ExternalError "requests.exceptions.ConnectionError")
  ∧ fst (store_in_supabase no_float_truthy no_database_world sample_agent
           ["first"; "second"] [])
    = Raise (ExternalError "httpx.ConnectError")
  ∧ fst (fetch_financial_news no_float_truthy str_only offline_world
           sample_agent 3 [])
    = Raise (ExternalError "requests.exceptions.ConnectionError")
  ∧ fst (fetch_financial_news no_float_truthy str_only no_database_world
           sample_agent 3 [])
    = Raise (ExternalError "httpx.ConnectError").
Proof. split_and!; try discriminate; vm_compute; reflexivity. Qed.

(** * Further properties of the code *)

Section MoreProperties.

Context {pyfloat : Type}.
Variable float_truthy : pyfloat → bool.
Variable py_format : @json pyfloat → string.
Variable W : @World pyfloat.

Implicit Types (t : @trace pyfloat) (self : InfoAgent).
Implicit Types (record : gmap string (@json pyfloat)).

(** ** The formatter on arbitrary JSON *)

Lemma format_item_not_object (item : @json pyfloat) :
  (∀ record, item ≠ JObject record) →
  format_item py_format item = Raise AttributeError.
Proof.
  intros Hitem. destruct item as [| | | | | |record]; try reflexivity.
  by destruct (Hitem record).
Qed.

Lemma format_item_cases (item : @json pyfloat) :
  (∃ record, item = JObject record
             ∧ format_item py_format item
               = Ok (formatted_record py_format record))
  ∨ ((∀ record, item ≠ JObject record)
     ∧ format_item py_format item = Raise AttributeError).
Proof.
  destruct item as [| | | | | |record];
    try (right; split; [discriminate|reflexivity]).
  left. exists record. split; [done|apply format_item_object].
Qed.

Lemma extract_loop_shift (items : list (@json pyfloat)) :
  ∀ news_items : list string,
    extract_loop py_format news_items items
    = match extract_loop py_format [] items with
      | Ok out => Ok (news_items ++ out)
      | Raise e => Raise e
      end.
Proof.
  induction items as [|item rest IH]; intros news_items.
  - cbn. by rewrite app_nil_r.
  - cbn [extract_loop]. unfold mbind, result_mbind.
    destruct (format_item py_format item) as [text|e]; cbn [result_bind];
      [|done].
    rewrite (IH (news_items ++ [text])), (IH ([] ++ [text])).
    destruct (extract_loop py_format [] rest) as [out|e]; [|done].
    by rewrite <- app_assoc.
Qed.

Lemma extract_news_info_cons (item : @json pyfloat)
    (rest : list (@json pyfloat)) :
  extract_news_info py_format (JList (item :: rest))
  = match format_item py_format item with
    | Ok text =>
        match extract_news_info py_format (JList rest) with
        | Ok out => Ok (text :: out)
        | Raise e => Raise e
        end
    | Raise e => Raise e
    end.
Proof.
  unfold extract_news_info. cbn [py_iter].
  unfold mbind, result_mbind. cbn [result_bind extract_loop].
  unfold mbind, result_mbind.
  destruct (format_item py_format item) as [text|e]; cbn [result_bind];
    [|done].
  by rewrite extract_loop_shift.
Qed.

(** X1.  On a list the formatter returns if and only if every item is an
    object, and then with the formatted records of the items in order;
    otherwise, it raises [AttributeError]. *)
Theorem extract_news_info_list_ok_iff (items : list (@json pyfloat)) :
  (∀ out : list string,
     extract_news_info py_format (JList items) = Ok out
     ↔ ∃ records, items = JObject <$> records
                  ∧ out = formatted_record py_format <$> records)
  ∧ (∀ e, extract_news_info py_format (JList items) = Raise e
          → e = AttributeError).
Proof.
  induction items as [|item rest [IHok IHraise]].
  - split.
    + intros out. split.
      * intros [= <-]. by exists [].
      * intros (records & Hitems & ->).
        symmetry in Hitems. apply fmap_nil_inv in Hitems as ->. done.
    + intros e. discriminate.
  - rewrite extract_news_info_cons.
    destruct (format_item_cases item)
      as [(record & -> & ->)|(Hitem & ->)].
    + split.
      * intros out. split.
        -- destruct (extract_news_info py_format (JList rest)) as [tail|e]
             eqn:Hrest; [|discriminate].
           intros [= <-].
           destruct (proj1 (IHok tail) eq_refl) as (records & -> & ->).
           by exists (record :: records).
        -- intros (records & Hitems & ->).
           destruct records as [|first others]; [discriminate|].
           rewrite !fmap_cons in *. injection Hitems as <- ->.
           by rewrite (proj2 (IHok _) (ex_intro _ others (conj eq_refl eq_refl))).
      * intros e.
        destruct (extract_news_info py_format (JList rest)) as [tail|e']
          eqn:Hrest; [discriminate|].
        intros [= <-]. by apply IHraise.
    + split.
      * intros out. split; [discriminate|].
        intros (records & Hitems & _).
        destruct records as [|first others]; [discriminate|].
        rewrite fmap_cons in Hitems. injection Hitems as -> _.
        by destruct (Hitem first).
      * by intros e [= <-].
Qed.

(** X2.  What the formatter does with a value that is not a list: an empty
    [dict] and an empty [str] give no item, a [dict] or a [str] that is not
    empty raises [AttributeError] at its first key or character, and the
    values that cannot be iterated raise [TypeError]. *)
Theorem extract_news_info_not_a_list :
  extract_news_info py_format (JObject ∅) = Ok []
  ∧ (∀ record, record ≠ ∅ →
       extract_news_info py_format (JObject record) = Raise AttributeError)
  ∧ extract_news_info py_format (JStr "") = Ok []
  ∧ (∀ s : string, s ≠ "" →
       extract_news_info py_format (JStr s) = Raise AttributeError)
  ∧ extract_news_info py_format JNull = Raise TypeError
  ∧ (∀ b, extract_news_info py_format (JBool b) = Raise TypeError)
  ∧ (∀ z, extract_news_info py_format (JInt z) = Raise TypeError)
  ∧ (∀ f, extract_news_info py_format (JFloat f) = Raise TypeError).
Proof.
  split_and!; try done.
  - intros record Hrecord. unfold extract_news_info. cbn [py_iter].
    destruct (map_to_list record) as [|[key v] others] eqn:Hlist.
    + by apply map_to_list_empty_iff in Hlist.
    + reflexivity.
  - intros s Hs. destruct s as [|c s]; [done|reflexivity].
Qed.

(** X3.  The formatter goes through a concatenation piece by piece: the
    records of [front ++ back] are those of [front] followed by those of
    [back], and an error of [front] comes before one of [back]. *)
Theorem extract_news_info_app (front back : list (@json pyfloat)) :
  extract_news_info py_format (JList (front ++ back))
  = match extract_news_info py_format (JList front) with
    | Ok out =>
        match extract_news_info py_format (JList back) with
        | Ok out' => Ok (out ++ out')
        | Raise e => Raise e
        end
    | Raise e => Raise e
    end.
Proof.
  induction front as [|item rest IH].
  - cbn [app]. change (extract_news_info py_format (JList [])) with
      (@Ok (list string) []).
    by destruct (extract_news_info py_format (JList back)).
  - rewrite <- app_comm_cons, !extract_news_info_cons, IH.
    destruct (format_item py_format item) as [text|e]; [|done].
    destruct (extract_news_info py_format (JList rest)) as [out|e]; [|done].
    by destruct (extract_news_info py_format (JList back)).
Qed.

(** X4.  Only the five fields matter: two raw results that agree on
    [title], [description], [url], [published] and [source] are formatted
    to the same text, whatever else they hold. *)
Theorem format_item_five_fields_only record record' :
  (∀ key, key ∈ five_fields → record !! key = record' !! key) →
  format_item py_format (JObject record)
  = format_item py_format (JObject record').
Proof.
  intros Hsame. rewrite !format_item_object. f_equal.
  unfold formatted_record, field_text.
  rewrite !(Hsame "title"), !(Hsame "description"), !(Hsame "url"),
    !(Hsame "published"), !(Hsame "source");
    [done|unfold five_fields; set_solver..].
Qed.

(** ** The search client on a 200 *)

(** X5.  On a 200 whose body has a ["web"] object with ["results"], the
    search gives that value as it is, whatever it holds and however many
    items it has: nothing is cut to [count] and nothing is printed. *)
Theorem search_brave_returns_results self (query : string) (n : Z) t resp
    (body web : gmap string (@json pyfloat)) (results : @json pyfloat) :
  requests_get W t (search_request self query n) = Ok resp →
  status_code resp = 200 →
  response_json resp = Ok (JObject body) →
  body !! "web" = Some (JObject web) →
  web !! "results" = Some results →
  search_brave W self query n t
  = (Ok results, t ++ [EvGet (search_request self query n)]).
Proof.
  intros Hget Hstatus Hbody Hweb Hresults.
  rewrite (search_brave_answered _ _ _ _ _ _ Hget), Hstatus, Hbody. cbn.
  rewrite Hweb. cbn. by rewrite Hresults.
Qed.

(** X6.  On a 200 whose body is not of the expected shape the search
    raises, after its one request: the error of [response.json()] when the
    body is no JSON, [AttributeError] when the body is not an object, and
    [AttributeError] when its ["web"] entry is not an object. *)
Theorem search_brave_malformed_body self (query : string) (n : Z) t resp :
  requests_get W t (search_request self query n) = Ok resp →
  status_code resp = 200 →
  (∀ e, response_json resp = Raise e →
        search_brave W self query n t
        = (Raise e, t ++ [EvGet (search_request self query n)]))
  ∧ (∀ data, response_json resp = Ok data →
       (∀ body, data ≠ JObject body) →
       search_brave W self query n t
       = (Raise AttributeError, t ++ [EvGet (search_request self query n)]))
  ∧ (∀ (body : gmap string (@json pyfloat)) entry,
       response_json resp = Ok (JObject body) →
       body !! "web" = Some entry →
       (∀ web, entry ≠ JObject web) →
       search_brave W self query n t
       = (Raise AttributeError, t ++ [EvGet (search_request self query n)])).
Proof.
  intros Hget Hstatus.
  rewrite (search_brave_answered _ _ _ _ _ _ Hget), Hstatus.
  change (200 =? 200) with true. cbv beta iota.
  split_and!.
  - by intros e ->.
  - intros data -> Hdata.
    destruct data as [| | | | | |body]; try reflexivity.
    by destruct (Hdata body).
  - intros body entry -> Hweb Hentry. cbn. rewrite Hweb.
    destruct entry as [| | | | | |web]; try reflexivity.
    by destruct (Hentry web).
Qed.

(** ** The query generator on blanks *)

Lemma lstrip_all_space (s : string) : all_space s = true → lstrip s = "".
Proof.
  induction s as [|c s IH]; [done|]. cbn.
  destruct (is_space c); [exact IH|done].
Qed.

(** X7.  A completion whose first choice is made of white space only gives
    the empty query: the generator does not reject it. *)
Theorem generate_search_query_blank self (prompt : string) t completion
    first others (text : string) :
  completions_create W t (chat_request prompt) = Ok completion →
  choices completion = first :: others →
  content first = Some text →
  all_space text = true →
  generate_search_query W self prompt t
  = (Ok "", t ++ [EvCompletion (chat_request prompt)]).
Proof.
  intros Hcall Hchoices Hcontent Hblank.
  unfold generate_search_query. run.
  rewrite Hcall, Hchoices, Hcontent. unfold strip.
  by rewrite (lstrip_all_space _ Hblank).
Qed.

(** ** The storage sink: rows, composition, failures *)

Lemma store_loop_shift (items : list string) :
  ∀ (success_count : Z) t,
    store_loop float_truthy W success_count items t
    = match store_loop float_truthy W 0 items t with
      | (Ok stored, t') => (Ok (success_count + stored), t')
      | (Raise e, t') => (Raise e, t')
      end.
Proof.
  induction items as [|item rest IH]; intros success_count t.
  - cbn. by rewrite Z.add_0_r.
  - destruct (table_insert_execute W t "eco_info"
                (news_row (datetime_now_isoformat W t) item))
      as [reply|e] eqn:Hinsert.
    + rewrite !(store_loop_step _ _ _ _ _ _ _ Hinsert).
      rewrite (IH (success_count + _)), (IH (0 + _)).
      destruct (store_loop float_truthy W 0 rest _) as [[stored|e] t'];
        [|done].
      do 2 f_equal. lia.
    + by rewrite !(store_loop_raised _ _ _ _ _ _ _ Hinsert).
Qed.

Lemma store_loop_app (front back : list string) :
  ∀ (success_count : Z) t,
    store_loop float_truthy W success_count (front ++ back) t
    = match store_loop float_truthy W success_count front t with
      | (Ok stored, t') => store_loop float_truthy W stored back t'
      | (Raise e, t') => (Raise e, t')
      end.
Proof.
  induction front as [|item rest IH]; intros success_count t; [done|].
  rewrite <- app_comm_cons.
  destruct (table_insert_execute W t "eco_info"
              (news_row (datetime_now_isoformat W t) item))
    as [reply|e] eqn:Hinsert.
  - rewrite !(store_loop_step _ _ _ _ _ _ _ Hinsert). apply IH.
  - by rewrite !(store_loop_raised _ _ _ _ _ _ _ Hinsert).
Qed.

Lemma store_loop_completed (items : list string) :
  ∀ (success_count : Z) t (stored : Z) t',
    store_loop float_truthy W success_count items t = (Ok stored, t') →
    ∃ replies,
      insert_replies float_truthy W t items replies t'
      ∧ stored = success_count + stored_rows float_truthy replies.
Proof.
  induction items as [|item rest IH]; intros success_count t stored t'.
  - cbn. intros [= <- <-]. exists []. split; [constructor|].
    unfold stored_rows. cbn. lia.
  - destruct (table_insert_execute W t "eco_info"
                (news_row (datetime_now_isoformat W t) item))
      as [reply|e] eqn:Hinsert.
    + rewrite (store_loop_step _ _ _ _ _ _ _ Hinsert). intros Hrest.
      destruct (IH _ _ _ _ Hrest) as (replies & Hrun & ->).
      exists (reply :: replies). split; [by econstructor|].
      unfold stored_rows. cbn [List.filter].
      destruct (has_payload float_truthy reply); cbn [length]; lia.
    + by rewrite (store_loop_raised _ _ _ _ _ _ _ Hinsert).
Qed.

Lemma rows_inserted_app t (new : @trace pyfloat) :
  rows_inserted (t ++ new) = rows_inserted t ++ rows_inserted new.
Proof. apply omap_app. Qed.

Lemma rows_inserted_row_events (current_time item : string)
    (reply : @APIResponse pyfloat) :
  rows_inserted (row_events float_truthy current_time item reply)
  = [news_row current_time item].
Proof. unfold row_events. by destruct (has_payload float_truthy reply). Qed.

Lemma insert_replies_rows t (items : list string)
    (replies : list (@APIResponse pyfloat)) t' :
  insert_replies float_truthy W t items replies t' →
  length replies = length items
  ∧ ∃ rows, rows_inserted t' = rows_inserted t ++ rows
            ∧ finance_info <$> rows = items.
Proof.
  induction 1 as [t|t item rest reply replies t' Hreply Hrest [IHlen IH]].
  - split; [done|]. exists []. by rewrite app_nil_r.
  - split; [cbn; by rewrite IHlen|].
    destruct IH as (rows & Hrows & Hitems).
    exists (news_row (datetime_now_isoformat W t) item :: rows).
    rewrite Hrows, rows_inserted_app, rows_inserted_row_events.
    split; [by rewrite <- app_assoc|]. cbn. by rewrite Hitems.
Qed.

Lemma store_in_supabase_rows self (items : list string) t
    (stored : Z) t' :
  store_in_supabase float_truthy W self items t = (Ok stored, t') →
  ∃ rows,
    rows_inserted t' = rows_inserted t ++ rows
    ∧ finance_info <$> rows = items
    ∧ 0 ≤ stored ≤ Z.of_nat (length rows).
Proof.
  unfold store_in_supabase. intros Hstore.
  destruct (store_loop_completed _ _ _ _ _ Hstore) as (replies & Hrun & ->).
  destruct (insert_replies_rows _ _ _ _ Hrun)
    as (Hlen & rows & Hrows & Hitems).
  exists rows. split_and!; [done|done|..];
    pose proof (stored_rows_bounds float_truthy replies);
    rewrite <- Hitems, length_fmap in Hlen; lia.
Qed.

(** X8.  A batch that the sink gets through leaves one insert per item in
    the history, in the order of the items and after the inserts that were
    there, each row holding its item as [finance_info]; the count is at
    most the number of these inserts. *)
Theorem store_in_supabase_one_insert_per_item self (items : list string) t
    (stored : Z) t' :
  store_in_supabase float_truthy W self items t = (Ok stored, t') →
  ∃ rows,
    rows_inserted t' = rows_inserted t ++ rows
    ∧ finance_info <$> rows = items
    ∧ 0 ≤ stored ≤ Z.of_nat (length rows).
Proof. apply store_in_supabase_rows. Qed.

(** X9.  When every insert comes back with a payload, the sink returns the
    length of its input. *)
Theorem store_in_supabase_all_stored self (items : list string) t :
  inserts_succeed float_truthy W →
  ∃ t',
    store_in_supabase float_truthy W self items t
    = (Ok (Z.of_nat (length items)), t').
Proof.
  intros Hsucceed. unfold store_in_supabase.
  destruct (store_loop_all_succeed float_truthy W items Hsucceed 0 t)
    as [t' Hstore].
  exists t'. by rewrite Hstore.
Qed.

(** X10.  Storing a concatenation is storing its two pieces one after the
    other: the counts add up, and a piece that raises stops the rest. *)
Theorem store_in_supabase_app self (front back : list string) t :
  store_in_supabase float_truthy W self (front ++ back) t
  = match store_in_supabase float_truthy W self front t with
    | (Ok stored, t1) =>
        match store_in_supabase float_truthy W self back t1 with
        | (Ok stored', t2) => (Ok (stored + stored'), t2)
        | (Raise e, t2) => (Raise e, t2)
        end
    | (Raise e, t1) => (Raise e, t1)
    end.
Proof.
  unfold store_in_supabase. rewrite store_loop_app.
  destruct (store_loop float_truthy W 0 front t) as [[stored|e] t1]; [|done].
  apply store_loop_shift.
Qed.

(** X11.  An insert that raises in the middle of a batch ends the call
    there: the count of the rows before it is lost, their inserts stay in
    the history, and no insert is made for the rows after it. *)
Theorem store_in_supabase_stops_at_raise self (front : list string)
    (item : string) (rest : list string) t
    (replies : list (@APIResponse pyfloat)) t1 e :
  insert_replies float_truthy W t front replies t1 →
  table_insert_execute W t1 "eco_info"
    (news_row (datetime_now_isoformat W t1) item) = Raise e →
  ∃ t',
    store_in_supabase float_truthy W self (front ++ item :: rest) t
    = (Raise e, t')
    ∧ finance_info <$> rows_inserted t'
      = (finance_info <$> rows_inserted t) ++ front ++ [item].
Proof.
  intros Hrun Hraise.
  exists (t1 ++ [EvInsert "eco_info"
                   (news_row (datetime_now_isoformat W t1) item)]).
  split.
  - unfold store_in_supabase.
    rewrite store_loop_app, (store_loop_replies _ _ _ _ _ _ _ Hrun).
    apply (store_loop_raised _ _ _ _ _ _ _ Hraise).
  - destruct (insert_replies_rows _ _ _ _ Hrun) as (_ & rows & Hrows & <-).
    rewrite rows_inserted_app, Hrows, !fmap_app. cbn.
    by rewrite <- app_assoc.
Qed.

(** ** The pipeline driver: edge cases, failures, calls *)

(** X12.  With [num_queries] zero or negative the driver does nothing and
    returns 0. *)
Theorem fetch_financial_news_no_query self (num_queries : Z) t :
  num_queries ≤ 0 →
  fetch_financial_news float_truthy py_format W self num_queries t = (Ok 0, t).
Proof.
  intros Hn. unfold fetch_financial_news, range.
  by replace (Z.to_nat num_queries) with 0%nat by lia.
Qed.

(** X13.  A failure of the language model ends the run at once: when the
    first completion request raises, or comes back without a choice, the
    driver raises after that single request, with no search and no insert
    made. *)
Theorem fetch_financial_news_model_failure self (num_queries : Z) t :
  0 < num_queries →
  (∀ e,
     completions_create W t (chat_request (iteration_prompt 0 num_queries))
       = Raise e →
     fetch_financial_news float_truthy py_format W self num_queries t
     = (Raise e,
        t ++ [EvCompletion (chat_request (iteration_prompt 0 num_queries))]))
  ∧ (∀ completion,
       completions_create W t (chat_request (iteration_prompt 0 num_queries))
         = Ok completion →
       choices completion = [] →
       fetch_financial_news float_truthy py_format W self num_queries t
       = (Raise IndexError,
          t ++ [EvCompletion
                  (chat_request (iteration_prompt 0 num_queries))])).
Proof.
  intros Hn. destruct (range_pos num_queries Hn) as [rest Hrange].
  unfold fetch_financial_news. rewrite Hrange.
  split.
  - intros e Hcall. apply fetch_loop_raised.
    rewrite fetch_iteration_steps. unfold generate_search_query. run.
    by rewrite Hcall.
  - intros completion Hcall Hchoices. apply fetch_loop_raised.
    rewrite fetch_iteration_steps. unfold generate_search_query. run.
    by rewrite Hcall, Hchoices.
Qed.

Lemma fetch_loop_app self (num_queries : Z) (front back : list Z) :
  ∀ (total_stored : Z) t,
    fetch_loop float_truthy py_format W self num_queries total_stored
      (front ++ back) t
    = match fetch_loop float_truthy py_format W self num_queries total_stored
              front t with
      | (Ok stored, t') =>
          fetch_loop float_truthy py_format W self num_queries stored back t'
      | (Raise e, t') => (Raise e, t')
      end.
Proof.
  induction front as [|i rest IH]; intros total_stored t; [done|].
  rewrite <- app_comm_cons. cbn [fetch_loop]. unfold mbind, M_mbind, bind.
  destruct (fetch_iteration float_truthy py_format W self num_queries i t)
    as [[stored|e] t1]; [apply IH|done].
Qed.

Lemma range_split (n k : Z) :
  0 ≤ k < n → ∃ rest, range n = range k ++ k :: rest.
Proof.
  intros Hk. unfold range.
  replace (Z.to_nat n) with (Z.to_nat k + S (Z.to_nat (n - k - 1)))%nat by lia.
  rewrite seq_app, fmap_app. cbn [seq fmap list_fmap Nat.add].
  rewrite Z2Nat.id by lia. by eexists.
Qed.

(** X14.  An iteration that raises ends the run, whatever came before:
    when the iterations of indices [0 .. k-1] complete and the one of index
    [k] raises, the driver raises the same exception, the total of the
    completed iterations is lost, and the history is the one the failing
    iteration left, with all that the earlier ones did. *)
Theorem fetch_financial_news_stops_at_raise self (num_queries k : Z) t
    (counts : list Z) t1 e t2 :
  0 ≤ k < num_queries →
  iterations float_truthy py_format W self num_queries (range k) t counts t1 →
  fetch_iteration float_truthy py_format W self num_queries k t1
    = (Raise e, t2) →
  fetch_financial_news float_truthy py_format W self num_queries t
  = (Raise e, t2).
Proof.
  intros Hk Hrun Hraise.
  destruct (range_split num_queries k Hk) as [rest Hrange].
  unfold fetch_financial_news. rewrite Hrange, fetch_loop_app.
  destruct (fetch_loop_iterations float_truthy py_format W self num_queries
              _ 0 _ _ _ Hrun) as (-> & _).
  by apply fetch_loop_raised.
Qed.

Lemma filter_outbound_app t (new : @trace pyfloat) :
  List.filter outbound (t ++ new)
  = List.filter outbound t ++ List.filter outbound new.
Proof. apply List.filter_app. Qed.

Lemma search_brave_calls self (query : string) (n : Z) t
    (r : result (@json pyfloat)) t' :
  search_brave W self query n t = (r, t') →
  List.filter outbound t'
  = List.filter outbound t ++ [EvGet (search_request self query n)]
  ∧ rows_inserted t' = rows_inserted t.
Proof.
  destruct (requests_get W t (search_request self query n)) as [resp|e]
    eqn:Hget.
  - rewrite (search_brave_answered _ _ _ _ _ _ Hget).
    destruct (status_code resp =? 200); intros [= _ <-];
      rewrite !filter_outbound_app, !rows_inserted_app; cbn;
      by rewrite !app_nil_r.
  - rewrite (search_brave_raised _ _ _ _ _ _ Hget). intros [= _ <-].
    rewrite filter_outbound_app, rows_inserted_app. cbn.
    by rewrite app_nil_r.
Qed.

Lemma store_loop_calls (items : list string) :
  ∀ (success_count : Z) t (r : result Z) t',
    store_loop float_truthy W success_count items t = (r, t') →
    List.filter outbound t' = List.filter outbound t.
Proof.
  induction items as [|item rest IH]; intros success_count t r t'.
  - cbn. by intros [= _ <-].
  - destruct (table_insert_execute W t "eco_info"
                (news_row (datetime_now_isoformat W t) item))
      as [reply|e] eqn:Hinsert.
    + rewrite (store_loop_step _ _ _ _ _ _ _ Hinsert). intros Hrest.
      rewrite (IH _ _ _ _ Hrest), filter_outbound_app. unfold row_events.
      destruct (has_payload float_truthy reply); cbn; by rewrite app_nil_r.
    + rewrite (store_loop_raised _ _ _ _ _ _ _ Hinsert). intros [= _ <-].
      rewrite filter_outbound_app. cbn. by rewrite app_nil_r.
Qed.

Lemma fetch_iteration_calls self (num_queries i : Z) t (stored : Z) t' :
  fetch_iteration float_truthy py_format W self num_queries i t
    = (Ok stored, t') →
  ∃ query rows,
    List.filter outbound t'
    = List.filter outbound t ++ iteration_calls self num_queries i query
    ∧ rows_inserted t' = rows_inserted t ++ rows
    ∧ 0 ≤ stored ≤ Z.of_nat (length rows).
Proof.
  rewrite fetch_iteration_steps.
  destruct (generate_search_query W self _ t) as [[query|e] t1] eqn:Hquery;
    [|done].
  apply generate_search_query_trace in Hquery as ->.
  destruct (search_brave W self query 10 _) as [[results|e] t2] eqn:Hsearch;
    [|done].
  apply search_brave_calls in Hsearch as [Hcalls Hrows].
  destruct (extract_news_info py_format results) as [news_items|e]; [|done].
  destruct (store_in_supabase float_truthy W self news_items t2)
    as [[count|e] t3] eqn:Hstore; [|done].
  intros [= <- <-].
  pose proof (store_loop_calls _ _ _ _ _ Hstore) as Hquiet.
  destruct (store_in_supabase_rows _ _ _ _ _ Hstore)
    as (rows & Hrows' & _ & Hbound).
  exists query, rows. split_and!; [| |lia|lia].
  - rewrite filter_outbound_app, Hquiet, Hcalls, !filter_outbound_app.
    unfold iteration_calls. cbn. rewrite !app_nil_r, <- !app_assoc. done.
  - rewrite rows_inserted_app, Hrows', Hrows, !rows_inserted_app. cbn.
    by rewrite !app_nil_r.
Qed.

Lemma fetch_loop_calls self (num_queries : Z) (indices : list Z) :
  ∀ (total_stored : Z) t (total_stored' : Z) t',
    fetch_loop float_truthy py_format W self num_queries total_stored
      indices t = (Ok total_stored', t') →
    ∃ (queries : list string) rows,
      length queries = length indices
      ∧ List.filter outbound t'
        = List.filter outbound t
          ++ concat (zip_with (iteration_calls self num_queries)
                       indices queries)
      ∧ rows_inserted t' = rows_inserted t ++ rows
      ∧ total_stored ≤ total_stored' ≤ total_stored + Z.of_nat (length rows).
Proof.
  induction indices as [|i rest IH]; intros total_stored t total_stored' t'.
  - cbn. intros [= <- <-]. exists [], []. rewrite !app_nil_r.
    split_and!; cbn; (done || lia).
  - cbn [fetch_loop]. unfold mbind, M_mbind, bind.
    destruct (fetch_iteration float_truthy py_format W self num_queries i t)
      as [[stored|e] t1] eqn:Hstep; [|done].
    intros Hrest.
    destruct (fetch_iteration_calls _ _ _ _ _ _ Hstep)
      as (query & rows & Hcalls & Hrows & Hbound).
    destruct (IH _ _ _ _ Hrest)
      as (queries & rows' & Hlen & Hcalls' & Hrows' & Hbound').
    exists (query :: queries), (rows ++ rows').
    split_and!.
    + cbn. by rewrite Hlen.
    + rewrite Hcalls', Hcalls. cbn [zip_with concat].
      by rewrite <- app_assoc.
    + rewrite Hrows', Hrows. by rewrite <- app_assoc.
    + lia.
    + rewrite length_app. lia.
Qed.

(** X15.  The calls of a run that returns: in the history it leaves, the
    calls other than inserts and printed lines are, for each index [i] of
    [range(num_queries)] in turn, one completion request with the prompt
    numbered [i+1] out of [num_queries], one search request for ten results
    and one sleep of one second. *)
Theorem fetch_financial_news_calls self (num_queries : Z) t (total : Z) t' :
  fetch_financial_news float_truthy py_format W self num_queries t
    = (Ok total, t') →
  ∃ queries : list string,
    length queries = Z.to_nat num_queries
    ∧ List.filter outbound t'
      = List.filter outbound t
        ++ concat (zip_with (iteration_calls self num_queries)
                     (range num_queries) queries).
Proof.
  unfold fetch_financial_news. intros Hrun.
  destruct (fetch_loop_calls _ _ _ _ _ _ _ Hrun)
    as (queries & _ & Hlen & Hcalls & _).
  exists queries. split; [by rewrite Hlen, range_length|done].
Qed.

(** X16.  The total a run returns is not negative and is at most the
    number of inserts the run made. *)
Theorem fetch_financial_news_total_bounded self (num_queries : Z) t
    (total : Z) t' :
  fetch_financial_news float_truthy py_format W self num_queries t
    = (Ok total, t') →
  ∃ rows,
    rows_inserted t' = rows_inserted t ++ rows
    ∧ 0 ≤ total ≤ Z.of_nat (length rows).
Proof.
  unfold fetch_financial_news. intros Hrun.
  destruct (fetch_loop_calls _ _ _ _ _ _ _ Hrun)
    as (_ & rows & _ & _ & Hrows & Hbound).
  exists rows. split; [done|lia].
Qed.

(** ** Start-up: which check fails, and the clients *)

Lemma unusable_falsy (name : string) :
  unusable W name → env_truthy (getenv W name) = false.
Proof. by intros [-> | ->]. Qed.

Lemma usable_truthy (name : string) :
  ¬ unusable W name → env_truthy (getenv W name) = true.
Proof.
  unfold unusable. intros Husable.
  destruct (getenv W name) as [value|]; [|by destruct Husable; left].
  apply env_truthy_present. intros ->. destruct Husable. by right.
Qed.

(** X17.  An unset or empty search key or completion key makes the
    constructor raise the [ValueError] of its first check, whatever the
    database settings are; with both keys usable, an unset or empty database
    URL or key makes it raise the one of its second check.  In both cases
    no client has been built. *)
Theorem init_which_check_fails t :
  (unusable W "BRAVE_API_KEY" ∨ unusable W "OPENAI_API_KEY" →
   __init__ W t
   = (Raise (ValueError
        "API keys for Brave or OpenAI not found in environment variables"),
      t))
  ∧ (¬ unusable W "BRAVE_API_KEY" → ¬ unusable W "OPENAI_API_KEY" →
     unusable W "SUPABASE_URL" ∨ unusable W "SUPABASE_KEY" →
     __init__ W t
     = (Raise (ValueError
          "SUPABASE_URL or SUPABASE_KEY not found in environment variables"),
        t)).
Proof.
  split.
  - intros Hkeys. unfold __init__.
    destruct Hkeys as [H|H]; rewrite (unusable_falsy _ H); cbn [negb orb];
      [done|]. by rewrite orb_true_r.
  - intros Hbrave Hopenai Hdb. unfold __init__.
    rewrite (usable_truthy _ Hbrave), (usable_truthy _ Hopenai).
    cbn [negb orb].
    destruct Hdb as [H|H]; rewrite (unusable_falsy _ H); cbn [negb orb];
      [done|]. by rewrite orb_true_r.
Qed.

Lemma init_connects self t :
  credentials_present W self → __init__ W t = connect_clients W self t.
Proof.
  intros (Hbrave & Hopenai & Hurl & Hkey & Hb & Ho & Hu & Hk).
  unfold __init__. rewrite Hbrave, Hopenai, Hurl, Hkey.
  rewrite !env_truthy_present by done. cbn [negb orb default].
  by destruct self.
Qed.

Lemma init_clients_built self t :
  credentials_present W self →
  __init__ W t
  = match new_OpenAI W t (openai_api_key self) with
    | Raise e => (Raise e, t ++ [EvOpenAI (openai_api_key self)])
    | Ok _ =>
        match create_client W (t ++ [EvOpenAI (openai_api_key self)])
                (supabase_url self) (supabase_key self) with
        | Raise e =>
            (Raise e,
             t ++ [EvOpenAI (openai_api_key self);
                   EvCreateClient (supabase_url self) (supabase_key self)])
        | Ok _ =>
            (Ok self,
             t ++ [EvOpenAI (openai_api_key self);
                   EvCreateClient (supabase_url self) (supabase_key self)])
        end
    end.
Proof.
  intros Hcred. rewrite (init_connects self t Hcred).
  unfold connect_clients. run.
  destruct (new_OpenAI W t (openai_api_key self)); [|done].
  destruct (create_client W _ _ _); by rewrite <- app_assoc.
Qed.

(** X18.  With the four credentials present the constructor builds the
    completion client, then the database client: an error of the first
    leaves the second unbuilt, and when both are built the agent holds the
    four values of the environment. *)
Theorem init_builds_clients self t :
  credentials_present W self →
  __init__ W t
  = match new_OpenAI W t (openai_api_key self) with
    | Raise e => (Raise e, t ++ [EvOpenAI (openai_api_key self)])
    | Ok _ =>
        match create_client W (t ++ [EvOpenAI (openai_api_key self)])
                (supabase_url self) (supabase_key self) with
        | Raise e =>
            (Raise e,
             t ++ [EvOpenAI (openai_api_key self);
                   EvCreateClient (supabase_url self) (supabase_key self)])
        | Ok _ =>
            (Ok self,
             t ++ [EvOpenAI (openai_api_key self);
                   EvCreateClient (supabase_url self) (supabase_key self)])
        end
    end.
Proof. apply init_clients_built. Qed.

(** ** The entry point *)

(** X19.  Run with an unset or empty credential, the entry point prints
    the error line of a [ValueError] and has called nothing. *)
Theorem main_reports_unusable_credential t :
  unusable W "BRAVE_API_KEY" ∨ unusable W "OPENAI_API_KEY"
  ∨ unusable W "SUPABASE_URL" ∨ unusable W "SUPABASE_KEY" →
  ∃ msg, main float_truthy py_format W t = (ErrorLine (ValueError msg), t).
Proof.
  intros Hcred. unfold main. unfold mbind, M_mbind, bind.
  assert (∃ msg, __init__ W t = (Raise (ValueError msg), t)) as [msg ->];
    [|by exists msg].
  unfold __init__.
  destruct (env_truthy (getenv W "BRAVE_API_KEY")) eqn:Hbrave;
    cbn [negb orb]; [|by eexists].
  destruct (env_truthy (getenv W "OPENAI_API_KEY")) eqn:Hopenai;
    cbn [negb orb]; [|by eexists].
  destruct (env_truthy (getenv W "SUPABASE_URL")) eqn:Hurl;
    cbn [negb orb]; [|by eexists].
  destruct (env_truthy (getenv W "SUPABASE_KEY")) eqn:Hkey;
    cbn [negb orb]; [|by eexists].
  destruct Hcred as [H|[H|[H|H]]]; apply unusable_falsy in H; congruence.
Qed.

Lemma fetch_loop_two_hits self (num_queries : Z) (indices : list Z) :
  queries_generated W self →
  searches_give_two W self →
  inserts_succeed float_truthy W →
  ∀ (total_stored : Z) t, ∃ t',
    fetch_loop float_truthy py_format W self num_queries total_stored
      indices t
    = (Ok (total_stored + 2 * Z.of_nat (length indices)), t').
Proof.
  intros Hquery Hsearch Hstore.
  induction indices as [|i rest IH]; intros total_stored t.
  - exists t. cbn. by rewrite Z.add_0_r.
  - cbn [fetch_loop]. unfold mbind, M_mbind, bind.
    destruct (fetch_iteration_two_hits float_truthy py_format W self
                num_queries i t Hquery Hsearch Hstore) as [t1 ->].
    destruct (IH (total_stored + 2) t1) as [t' ->].
    exists t'. do 2 f_equal. cbn [length]. lia.
Qed.

(** X20.  With the four credentials present, clients that get built, a
    language model that answers, two results for every search and inserts
    that all succeed, the entry point runs its three queries and prints a
    total of 6. *)
Theorem main_default_run_total self t :
  credentials_present W self →
  (∀ t' key, new_OpenAI W t' key = Ok ()) →
  (∀ t' url key, create_client W t' url key = Ok ()) →
  queries_generated W self →
  searches_give_two W self →
  inserts_succeed float_truthy W →
  fst (main float_truthy py_format W t) = TotalStored 6.
Proof.
  intros Hcred Hopenai Hsupabase Hquery Hsearch Hstore.
  unfold main. unfold mbind, M_mbind, bind.
  rewrite (init_clients_built self t Hcred), Hopenai, Hsupabase.
  unfold fetch_financial_news.
  destruct (fetch_loop_two_hits self 3 (range 3) Hquery Hsearch Hstore 0
              (t ++ [EvOpenAI (openai_api_key self);
                     EvCreateClient (supabase_url self) (supabase_key self)]))
    as [t' ->].
  reflexivity.
Qed.

End MoreProperties.

(** * The further properties on sample worlds *)

(** A list of one hit returns; a list with a number in it raises. *)
Lemma extract_news_info_list_ok_iff_witness :
  (∃ records,
     [sample_hit "Bitcoin rallies" "https://a.example/1"]
       = JObject <$> records
     ∧ [formatted_record str_only
          (<["title" := JStr "Bitcoin rallies"]>
             (<["url" := JStr "https://a.example/1"]> ∅))]
       = formatted_record str_only <$> records)
  ∧ extract_news_info str_only
      (JList [sample_hit "Bitcoin rallies" "https://a.example/1"; JInt 3])
    = Raise AttributeError.
Proof.
  split.
  - apply (proj1 (proj1 (extract_news_info_list_ok_iff str_only
             [sample_hit "Bitcoin rallies" "https://a.example/1"]) _)).
    exact (extract_news_info_objects_eq str_only
             [<["title" := JStr "Bitcoin rallies"]>
                (<["url" := JStr "https://a.example/1"]> ∅)]).
  - destruct (extract_news_info str_only
                (JList [sample_hit "Bitcoin rallies" "https://a.example/1";
                        JInt 3])) as [out|e] eqn:Hrun.
    + discriminate Hrun.
    + f_equal.
      exact (proj2 (extract_news_info_list_ok_iff str_only
               [sample_hit "Bitcoin rallies" "https://a.example/1"; JInt 3])
               e Hrun).
Defined.

(** A [dict] where the list of results is expected. *)
Lemma extract_news_info_not_a_list_witness :
  extract_news_info str_only (sample_hit "Bitcoin rallies" "https://a.example/1")
  = Raise AttributeError
  ∧ extract_news_info str_only (JStr "none") = Raise AttributeError.
Proof.
  destruct (extract_news_info_not_a_list str_only)
    as (_ & Hdict & _ & Hstr & _).
  split.
  - apply Hdict. apply insert_non_empty.
  - apply Hstr. discriminate.
Defined.

(** A hit with a ["rank"] is formatted as the same hit without it. *)
Lemma format_item_five_fields_only_witness :
  format_item str_only
    (JObject (<["rank" := JInt 1]> (<["title" := JStr "Markets today"]> ∅)))
  = format_item str_only (JObject (<["title" := JStr "Markets today"]> ∅)).
Proof.
  apply format_item_five_fields_only.
  intros key Hkey. unfold five_fields in Hkey.
  repeat (apply elem_of_cons in Hkey as [->|Hkey]; [reflexivity|]).
  by apply elem_of_nil in Hkey.
Defined.

(** Two hits come back as they are. *)
Lemma search_brave_returns_results_witness :
  fst (search_brave steady_world sample_agent "bitcoin" 1 [])
  = Ok (JList [sample_hit "Bitcoin rallies" "https://a.example/1";
               sample_hit "Markets today" "https://b.example/2"]).
Proof.
  rewrite (search_brave_returns_results steady_world sample_agent "bitcoin" 1
             [] {| status_code := 200; response_json := Ok two_hits |}
             _ _ _ eq_refl eq_refl eq_refl eq_refl eq_refl).
  reflexivity.
Defined.

(** A body that is no JSON, a body that is a list, a null ["web"]. *)
Lemma search_brave_malformed_body_witness :
  fst (search_brave odd_world sample_agent "garbled" 10 [])
  = Raise (ExternalError "JSONDecodeError")
  ∧ fst (search_brave odd_world sample_agent "array" 10 [])
    = Raise AttributeError
  ∧ fst (search_brave odd_world sample_agent "nullweb" 10 [])
    = Raise AttributeError.
Proof.
  split_and!.
  - destruct (search_brave_malformed_body odd_world sample_agent "garbled" 10
                [] _ eq_refl eq_refl) as (Hgarbled & _).
    by rewrite (Hgarbled _ eq_refl).
  - destruct (search_brave_malformed_body odd_world sample_agent "array" 10
                [] _ eq_refl eq_refl) as (_ & Harray & _).
    rewrite (Harray _ eq_refl); [reflexivity|discriminate].
  - destruct (search_brave_malformed_body odd_world sample_agent "nullweb" 10
                [] _ eq_refl eq_refl) as (_ & _ & Hweb).
    rewrite (Hweb _ JNull eq_refl eq_refl); [reflexivity|discriminate].
Defined.

(** Three blanks make the empty query. *)
Lemma generate_search_query_blank_witness :
  fst (generate_search_query blank_world sample_agent default_prompt [])
  = Ok "".
Proof.
  by rewrite (generate_search_query_blank blank_world sample_agent
                default_prompt [] _ _ _ "   " eq_refl eq_refl eq_refl eq_refl).
Defined.

(** Two items stored after an earlier insert. *)
Lemma store_in_supabase_one_insert_per_item_witness :
  ∃ rows,
    rows_inserted
      (snd (store_in_supabase no_float_truthy steady_world sample_agent
              ["first"; "second"]
              [EvInsert "eco_info" (news_row "2024-04-30T08:00:00" "old")]))
    = [news_row "2024-04-30T08:00:00" "old"] ++ rows
    ∧ finance_info <$> rows = ["first"; "second"]
    ∧ 0 ≤ 2 ≤ Z.of_nat (length rows).
Proof.
  apply (store_in_supabase_one_insert_per_item no_float_truthy steady_world
           sample_agent ["first"; "second"]
           [EvInsert "eco_info" (news_row "2024-04-30T08:00:00" "old")]).
  reflexivity.
Defined.

(** Three items, all stored. *)
Lemma store_in_supabase_all_stored_witness :
  ∃ t',
    store_in_supabase no_float_truthy steady_world sample_agent
      ["a"; "b"; "c"] [] = (Ok 3, t').
Proof.
  apply (store_in_supabase_all_stored no_float_truthy steady_world
           sample_agent ["a"; "b"; "c"] []).
  intros t r. by eexists.
Defined.

(** The second of three inserts raises. *)
Lemma store_in_supabase_stops_at_raise_witness :
  ∃ t',
    store_in_supabase no_float_truthy one_insert_world sample_agent
      (["first"] ++ "second" :: ["third"]) []
    = (Raise (ExternalError "httpx.ConnectError"), t')
    ∧ finance_info <$> rows_inserted t' = [] ++ ["first"] ++ ["second"].
Proof.
  eapply (store_in_supabase_stops_at_raise no_float_truthy one_insert_world
            sample_agent ["first"] "second" ["third"] []).
  - eapply replies_cons; [reflexivity|]. apply replies_nil.
  - reflexivity.
Defined.

(** No query asked for. *)
Lemma fetch_financial_news_no_query_witness :
  fetch_financial_news no_float_truthy str_only steady_world sample_agent
    (-1) [] = (Ok 0, []).
Proof.
  apply fetch_financial_news_no_query. lia.
Defined.

(** The language model cannot be reached. *)
Lemma fetch_financial_news_model_failure_witness :
  fetch_financial_news no_float_truthy str_only mute_world sample_agent 3 []
  = (Raise (ExternalError "openai.APIConnectionError"),
     [EvCompletion (chat_request (iteration_prompt 0 3))]).
Proof.
  apply (proj1 (fetch_financial_news_model_failure no_float_truthy str_only
                  mute_world sample_agent 3 [] ltac:(lia))).
  reflexivity.
Defined.

(** The second search of a run of three raises: the two rows of the first
    iteration have been inserted. *)
Lemma fetch_financial_news_stops_at_raise_witness :
  fst (fetch_financial_news no_float_truthy str_only one_search_world
         sample_agent 3 [])
  = Raise (ExternalError "requests.exceptions.ConnectionError")
  ∧ length (rows_inserted
              (snd (fetch_financial_news no_float_truthy str_only
                      one_search_world sample_agent 3 []))) = 2%nat.
Proof.
  assert (Hrun : iterations no_float_truthy str_only one_search_world
            sample_agent 3 (range 1) [] [2]
            (snd (fetch_iteration no_float_truthy str_only one_search_world
                    sample_agent 3 0 []))).
  { eapply iterations_cons; [vm_compute; reflexivity|].
    vm_compute. apply iterations_nil. }
  rewrite (fetch_financial_news_stops_at_raise no_float_truthy str_only
             one_search_world sample_agent 3 1 [] [2] _
             (ExternalError "requests.exceptions.ConnectionError")
             (snd (fetch_iteration no_float_truthy str_only one_search_world
                     sample_agent 3 1
                     (snd (fetch_iteration no_float_truthy str_only
                             one_search_world sample_agent 3 0 []))))
             ltac:(lia) Hrun).
  - split; [reflexivity|]. vm_compute. reflexivity.
  - vm_compute. reflexivity.
Defined.

(** The calls of a run of two queries. *)
Lemma fetch_financial_news_calls_witness :
  ∃ queries : list string,
    length queries = 2%nat
    ∧ List.filter outbound
        (snd (fetch_financial_news no_float_truthy str_only steady_world
                sample_agent 2 []))
      = [] ++ concat (zip_with (iteration_calls sample_agent 2)
                        [0; 1] queries).
Proof.
  apply (fetch_financial_news_calls no_float_truthy str_only steady_world
           sample_agent 2 [] 4).
  vm_compute. reflexivity.
Defined.

(** A run of two queries with a failing first insert: 3 for 4 inserts. *)
Lemma fetch_financial_news_total_bounded_witness :
  ∃ rows,
    rows_inserted
      (snd (fetch_financial_news no_float_truthy str_only flaky_world
              sample_agent 2 []))
    = [] ++ rows
    ∧ 0 ≤ 3 ≤ Z.of_nat (length rows).
Proof.
  apply (fetch_financial_news_total_bounded no_float_truthy str_only
           flaky_world sample_agent 2 [] 3).
  vm_compute. reflexivity.
Defined.

(** An empty search key; then an unset database URL. *)
Lemma init_which_check_fails_witness :
  __init__ (set_env "BRAVE_API_KEY" "" steady_world) []
  = (Raise (ValueError
       "API keys for Brave or OpenAI not found in environment variables"),
     [])
  ∧ __init__ (unset_env "SUPABASE_URL" steady_world) []
    = (Raise (ValueError
         "SUPABASE_URL or SUPABASE_KEY not found in environment variables"),
       []).
Proof.
  split.
  - apply (proj1 (init_which_check_fails
                    (set_env "BRAVE_API_KEY" "" steady_world) [])).
    left. right. reflexivity.
  - apply (proj2 (init_which_check_fails
                    (unset_env "SUPABASE_URL" steady_world) [])).
    + intros [H|H]; discriminate H.
    + intros [H|H]; discriminate H.
    + left. left. reflexivity.
Defined.

(** The completion client cannot be built: the database client is not
    asked for. *)
Lemma init_builds_clients_witness :
  __init__ (with_constructors (Raise (ExternalError "openai.OpenAIError"))
              (Ok ()) steady_world) []
  = (Raise (ExternalError "openai.OpenAIError"), [EvOpenAI "sk-test"])
  ∧ __init__ steady_world []
    = (Ok sample_agent,
       [EvOpenAI "sk-test";
        EvCreateClient "https://example.supabase.co" "service-key"]).
Proof.
  split.
  - rewrite (init_builds_clients
               (with_constructors (Raise (ExternalError "openai.OpenAIError"))
                  (Ok ()) steady_world) sample_agent []); [reflexivity|].
    split_and!; (reflexivity || discriminate).
  - rewrite (init_builds_clients steady_world sample_agent []);
      [reflexivity|].
    split_and!; (reflexivity || discriminate).
Defined.

(** The database key is unset. *)
Lemma main_reports_unusable_credential_witness :
  ∃ msg,
    main no_float_truthy str_only (unset_env "SUPABASE_KEY" steady_world) []
    = (ErrorLine (ValueError msg), []).
Proof.
  apply main_reports_unusable_credential.
  do 3 right. left. reflexivity.
Defined.

(** The default run in the steady world. *)
Lemma main_default_run_total_witness :
  fst (main no_float_truthy str_only steady_world []) = TotalStored 6.
Proof.
  apply (main_default_run_total no_float_truthy str_only steady_world
           sample_agent []).
  - split_and!; (reflexivity || discriminate).
  - reflexivity.
  - reflexivity.
  - intros prompt t. by eexists _, _.
  - intros query t. by eexists _, _, _.
  - intros t r. by eexists.
Defined.

(** * The driver over whole runs *)

Section PipelineRuns.

Context {pyfloat : Type}.
Variable float_truthy : pyfloat → bool.
Variable py_format : @json pyfloat → string.
Variable W : @World pyfloat.

Implicit Types (t : @trace pyfloat) (self : InfoAgent).

Lemma total_app (counts counts' : list Z) :
  total (counts ++ counts') = total counts + total counts'.
Proof.
  induction counts as [|c counts IH]; [done|].
  change (total ((c :: counts) ++ counts'))
    with (c + total (counts ++ counts')).
  change (total (c :: counts)) with (c + total counts). lia.
Qed.

Lemma pipeline_step_iteration self (num_queries i : Z) t (query : string) t1
    (search_results : @json pyfloat) t2 (news_items : list string)
    (stored_count : Z) t3 :
  generate_search_query W self (iteration_prompt i num_queries) t
    = (Ok query, t1) →
  search_brave W self query 10 (t1 ++ [EvPrint (SearchingFor query)])
    = (Ok search_results, t2) →
  extract_news_info py_format search_results = Ok news_items →
  store_in_supabase float_truthy W self news_items t2
    = (Ok stored_count, t3) →
  fetch_iteration float_truthy py_format W self num_queries i t
  = (Ok stored_count,
     t3 ++ [EvPrint (StoredItems stored_count query); EvSleep 1]).
Proof.
  intros Hquery Hsearch Hformat Hstore.
  by rewrite fetch_iteration_steps, Hquery, Hsearch, Hformat, Hstore.
Qed.

Lemma pipeline_steps_iterations self (num_queries : Z) (indices : list Z) t
    (counts : list Z) t' :
  pipeline_steps float_truthy py_format W self num_queries indices t counts t'
  → iterations float_truthy py_format W self num_queries indices t counts t'.
Proof.
  induction 1 as [t|i rest t query t1 results t2 news_items stored t3
                    counts t' Hquery Hsearch Hformat Hstore Hrest IH].
  - constructor.
  - econstructor; [|exact IH].
    by apply (pipeline_step_iteration _ _ _ _ _ _ _ _ _ _ _
                Hquery Hsearch Hformat Hstore).
Qed.

(** The run of the driver, split at one of its iterations: the iterations
    before it having completed, the driver does what this iteration does
    and, if it completes, goes on with the iterations after it. *)
Lemma fetch_financial_news_split self (num_queries k : Z)
    (front back : list Z) t (counts : list Z) tk :
  range num_queries = front ++ k :: back →
  pipeline_steps float_truthy py_format W self num_queries front t counts tk →
  fetch_financial_news float_truthy py_format W self num_queries t
  = match fetch_iteration float_truthy py_format W self num_queries k tk with
    | (Ok stored_count, t1) =>
        fetch_loop float_truthy py_format W self num_queries
          (total counts + stored_count) back t1
    | (Raise e, t1) => (Raise e, t1)
    end.
Proof.
  intros Hrange Hfront. apply pipeline_steps_iterations in Hfront.
  unfold fetch_financial_news. rewrite Hrange, fetch_loop_app.
  destruct (fetch_loop_iterations float_truthy py_format W self num_queries
              _ 0 _ _ _ Hfront) as (-> & _).
  rewrite Z.add_0_l. cbn [fetch_loop]. unfold mbind, M_mbind, bind.
  by destruct (fetch_iteration float_truthy py_format W self num_queries k tk)
    as [[stored|e] t1].
Qed.

Lemma fetch_loop_steps self (num_queries : Z) (indices : list Z)
    (total_stored : Z) t (counts : list Z) t' :
  pipeline_steps float_truthy py_format W self num_queries indices t counts t'
  → fetch_loop float_truthy py_format W self num_queries total_stored
      indices t
    = (Ok (total_stored + total counts), t').
Proof.
  intros Hsteps. apply pipeline_steps_iterations in Hsteps.
  by destruct (fetch_loop_iterations float_truthy py_format W self
                 num_queries _ total_stored _ _ _ Hsteps) as (-> & _).
Qed.

(** C5.  The driver runs one iteration per index of [range(num_queries)],
    one after the other: when in each of them the query is generated, the
    search returns, its results are formatted and the storage sink returns
    a stored count, the driver returns the sum of the counts the storage
    sink returned, after [num_queries] completion requests.  With two
    queries, two results for every search and inserts that all succeed,
    it returns 4. *)
Theorem fetch_financial_news_sums_iterations self (num_queries : Z) t :
  (∀ (counts : list Z) t',
     pipeline_steps float_truthy py_format W self num_queries
       (range num_queries) t counts t' →
     fetch_financial_news float_truthy py_format W self num_queries t
       = (Ok (total counts), t')
     ∧ length counts = Z.to_nat num_queries
     ∧ completions_sent t'
       = (completions_sent t + Z.to_nat num_queries)%nat)
  ∧ (queries_generated W self →
     searches_give_two W self →
     inserts_succeed float_truthy W →
     fst (fetch_financial_news float_truthy py_format W self 2 t) = Ok 4).
Proof.
  split.
  - intros counts t' Hsteps. apply pipeline_steps_iterations in Hsteps.
    unfold fetch_financial_news.
    destruct (fetch_loop_iterations float_truthy py_format W self num_queries
                _ 0 _ _ _ Hsteps) as (Hloop & Hlen & Hsent).
    rewrite range_length in Hlen, Hsent. by rewrite Hloop.
  - intros Hquery Hsearch Hstore.
    unfold fetch_financial_news.
    destruct (fetch_loop_two_hits float_truthy py_format W self 2 (range 2)
                Hquery Hsearch Hstore 0 t) as [t' ->].
    reflexivity.
Qed.

Lemma fetch_iteration_failed_search self (num_queries i : Z) t
    (query : string) t1 resp :
  generate_search_query W self (iteration_prompt i num_queries) t
    = (Ok query, t1) →
  requests_get W (t1 ++ [EvPrint (SearchingFor query)])
    (search_request self query 10) = Ok resp →
  status_code resp ≠ 200 →
  fetch_iteration float_truthy py_format W self num_queries i t
  = (Ok 0, after_failed_search self query (status_code resp) t1).
Proof.
  intros Hquery Hget Hstatus.
  rewrite fetch_iteration_steps, Hquery.
  rewrite (search_brave_answered _ _ _ _ _ _ Hget).
  destruct (Z.eqb_spec (status_code resp) 200) as [|_]; [done|].
  change (extract_news_info py_format (JList []))
    with (@Ok (list string) []).
  cbn [store_in_supabase store_loop]. unfold mret, M_ret, ret.
  unfold after_failed_search. by rewrite <- !app_assoc.
Qed.

(** C4, as the code has it.  An error status of the search and a reply
    without payload of an insert are handled where they occur: the search
    gives no result, the row is not counted, the storage sink goes on with
    the next row and the driver with the next iteration.  An exception
    raised by the network client is not caught by the search client nor by
    the storage sink: at whatever row and in whatever iteration it is
    raised, it leaves the component and it leaves the driver, whose run
    stops there. *)
Theorem network_exceptions_propagate self :
  (∀ (query : string) (n : Z) t resp,
     requests_get W t (search_request self query n) = Ok resp →
     status_code resp ≠ 200 →
     search_brave W self query n t
     = (Ok (JList []),
        t ++ [EvGet (search_request self query n);
              EvPrint (ErrorSearching (status_code resp))]))
  ∧ (∀ (items : list string) t (replies : list (@APIResponse pyfloat)) t',
       insert_replies float_truthy W t items replies t' →
       store_in_supabase float_truthy W self items t
       = (Ok (stored_rows float_truthy replies), t'))
  ∧ (∀ (num_queries k : Z) (front back : list Z) t (counts : list Z) tk
       (query : string) t1 resp (counts' : list Z) t',
       range num_queries = front ++ k :: back →
       pipeline_steps float_truthy py_format W self num_queries
         front t counts tk →
       generate_search_query W self (iteration_prompt k num_queries) tk
         = (Ok query, t1) →
       requests_get W (t1 ++ [EvPrint (SearchingFor query)])
         (search_request self query 10) = Ok resp →
       status_code resp ≠ 200 →
       pipeline_steps float_truthy py_format W self num_queries back
         (after_failed_search self query (status_code resp) t1) counts' t' →
       fetch_financial_news float_truthy py_format W self num_queries t
       = (Ok (total counts + 0 + total counts'), t'))
  ∧ (∀ (num_queries k : Z) (front back : list Z) t (counts : list Z) tk
       (query : string) t1 search_results t2 (news_items : list string)
       (replies : list (@APIResponse pyfloat)) t3 (counts' : list Z) t',
       range num_queries = front ++ k :: back →
       pipeline_steps float_truthy py_format W self num_queries
         front t counts tk →
       generate_search_query W self (iteration_prompt k num_queries) tk
         = (Ok query, t1) →
       search_brave W self query 10 (t1 ++ [EvPrint (SearchingFor query)])
         = (Ok search_results, t2) →
       extract_news_info py_format search_results = Ok news_items →
       insert_replies float_truthy W t2 news_items replies t3 →
       pipeline_steps float_truthy py_format W self num_queries back
         (t3 ++ [EvPrint (StoredItems (stored_rows float_truthy replies)
                            query);
                 EvSleep 1])
         counts' t' →
       fetch_financial_news float_truthy py_format W self num_queries t
       = (Ok (total counts + stored_rows float_truthy replies
              + total counts'), t'))
  ∧ (∀ (query : string) (n : Z) t e,
       requests_get W t (search_request self query n) = Raise e →
       search_brave W self query n t
       = (Raise e, t ++ [EvGet (search_request self query n)]))
  ∧ (∀ (before : list string) (item : string) (after : list string) t
       (replies : list (@APIResponse pyfloat)) t1 e,
       insert_replies float_truthy W t before replies t1 →
       table_insert_execute W t1 "eco_info"
         (news_row (datetime_now_isoformat W t1) item) = Raise e →
       store_in_supabase float_truthy W self (before ++ item :: after) t
       = (Raise e,
          t1 ++ [EvInsert "eco_info"
                   (news_row (datetime_now_isoformat W t1) item)]))
  ∧ (∀ (num_queries k : Z) (front back : list Z) t (counts : list Z) tk
       (query : string) t1 e,
       range num_queries = front ++ k :: back →
       pipeline_steps float_truthy py_format W self num_queries
         front t counts tk →
       generate_search_query W self (iteration_prompt k num_queries) tk
         = (Ok query, t1) →
       requests_get W (t1 ++ [EvPrint (SearchingFor query)])
         (search_request self query 10) = Raise e →
       fetch_financial_news float_truthy py_format W self num_queries t
       = (Raise e,
          t1 ++ [EvPrint (SearchingFor query);
                 EvGet (search_request self query 10)]))
  ∧ (∀ (num_queries k : Z) (front back : list Z) t (counts : list Z) tk
       (query : string) t1 search_results t2
       (before : list string) (item : string) (after : list string)
       (replies : list (@APIResponse pyfloat)) t3 e,
       range num_queries = front ++ k :: back →
       pipeline_steps float_truthy py_format W self num_queries
         front t counts tk →
       generate_search_query W self (iteration_prompt k num_queries) tk
         = (Ok query, t1) →
       search_brave W self query 10 (t1 ++ [EvPrint (SearchingFor query)])
         = (Ok search_results, t2) →
       extract_news_info py_format search_results
         = Ok (before ++ item :: after) →
       insert_replies float_truthy W t2 before replies t3 →
       table_insert_execute W t3 "eco_info"
         (news_row (datetime_now_isoformat W t3) item) = Raise e →
       fetch_financial_news float_truthy py_format W self num_queries t
       = (Raise e,
          t3 ++ [EvInsert "eco_info"
                   (news_row (datetime_now_isoformat W t3) item)])).
Proof.
  split_and!.
  - intros query n t resp Hget Hstatus.
    rewrite (search_brave_answered _ _ _ _ _ _ Hget).
    by destruct (Z.eqb_spec (status_code resp) 200).
  - intros items t replies t' Hrun. unfold store_in_supabase.
    by rewrite (store_loop_replies _ _ _ _ _ _ _ Hrun).
  - intros num_queries k front back t counts tk query t1 resp counts' t'
      Hrange Hfront Hquery Hget Hstatus Hback.
    rewrite (fetch_financial_news_split _ _ _ _ _ _ _ _ Hrange Hfront).
    rewrite (fetch_iteration_failed_search _ _ _ _ _ _ _ Hquery Hget Hstatus).
    apply (fetch_loop_steps _ _ _ _ _ _ _ Hback).
  - intros num_queries k front back t counts tk query t1 results t2
      news_items replies t3 counts' t'
      Hrange Hfront Hquery Hsearch Hformat Hrun Hback.
    rewrite (fetch_financial_news_split _ _ _ _ _ _ _ _ Hrange Hfront).
    assert (Hstore : store_in_supabase float_truthy W self news_items t2
                     = (Ok (stored_rows float_truthy replies), t3)).
    { unfold store_in_supabase.
      by rewrite (store_loop_replies _ _ _ _ _ _ _ Hrun). }
    rewrite (pipeline_step_iteration _ _ _ _ _ _ _ _ _ _ _
               Hquery Hsearch Hformat Hstore).
    apply (fetch_loop_steps _ _ _ _ _ _ _ Hback).
  - intros query n t e. apply search_brave_raised.
  - intros before item after t replies t1 e Hrun Hraise.
    unfold store_in_supabase.
    rewrite store_loop_app, (store_loop_replies _ _ _ _ _ _ _ Hrun).
    apply (store_loop_raised _ _ _ _ _ _ _ Hraise).
  - intros num_queries k front back t counts tk query t1 e
      Hrange Hfront Hquery Hget.
    rewrite (fetch_financial_news_split _ _ _ _ _ _ _ _ Hrange Hfront).
    rewrite fetch_iteration_steps, Hquery.
    rewrite (search_brave_raised _ _ _ _ _ _ Hget).
    by rewrite <- app_assoc.
  - intros num_queries k front back t counts tk query t1 results t2
      before item after replies t3 e
      Hrange Hfront Hquery Hsearch Hformat Hrun Hraise.
    rewrite (fetch_financial_news_split _ _ _ _ _ _ _ _ Hrange Hfront).
    rewrite fetch_iteration_steps, Hquery, Hsearch, Hformat.
    unfold store_in_supabase.
    rewrite store_loop_app, (store_loop_replies _ _ _ _ _ _ _ Hrun).
    by rewrite (store_loop_raised _ _ _ _ _ _ _ Hraise).
Qed.

End PipelineRuns.

(** * Whole runs on sample worlds *)

(** Two queries with two hits each: with a first insert that comes back
    empty the counts are 1 and 2 and the total is 3; with inserts that all
    succeed the total is 4. *)
Lemma fetch_financial_news_sums_iterations_witness :
  fst (fetch_financial_news no_float_truthy str_only flaky_world
         sample_agent 2 []) = Ok (total [1; 2])
  ∧ fst (fetch_financial_news no_float_truthy str_only steady_world
           sample_agent 2 []) = Ok 4.
Proof.
  split.
  - destruct (fetch_financial_news_sums_iterations no_float_truthy str_only
                flaky_world sample_agent 2 []) as [Hsum _].
    assert (Hrun : pipeline_steps no_float_truthy str_only flaky_world
              sample_agent 2 (range 2) [] [1; 2]
              (snd (fetch_financial_news no_float_truthy str_only
                      flaky_world sample_agent 2 []))).
    { eapply pipeline_step;
        [vm_compute; reflexivity | vm_compute; reflexivity
        | vm_compute; reflexivity | vm_compute; reflexivity |].
      eapply pipeline_step;
        [vm_compute; reflexivity | vm_compute; reflexivity
        | vm_compute; reflexivity | vm_compute; reflexivity |].
      vm_compute. apply pipeline_done. }
    destruct (Hsum _ _ Hrun) as (Hfetch & _ & _). by rewrite Hfetch.
  - destruct (fetch_financial_news_sums_iterations no_float_truthy str_only
                steady_world sample_agent 2 []) as [_ Hfour].
    apply Hfour.
    + intros prompt t. by eexists _, _.
    + intros query t. by eexists _, _, _.
    + intros t r. by eexists.
Defined.

(** What degrades and what propagates, component by component and then in
    runs of the driver: a 503 on the first of two searches (total 2), an
    empty payload on the first of four inserts (total 3), a search that
    raises in the second of three iterations, an insert that raises on the
    second row of the second iteration. *)
Lemma network_exceptions_propagate_witness :
  fst (search_brave moody_world sample_agent "down" 10 []) = Ok (JList [])
  ∧ fst (store_in_supabase no_float_truthy flaky_world sample_agent
           ["first"; "second"] []) = Ok 1
  ∧ fst (fetch_financial_news no_float_truthy str_only slow_start_world
           sample_agent 2 []) = Ok 2
  ∧ fst (fetch_financial_news no_float_truthy str_only flaky_world
           sample_agent 2 []) = Ok 3
  ∧ fst (search_brave offline_world sample_agent "bitcoin price news" 10 [])
    = Raise (ExternalError "requests.exceptions.ConnectionError")
  ∧ fst (store_in_supabase no_float_truthy one_insert_world sample_agent
           ["first"; "second"; "third"] [])
    = Raise (ExternalError "httpx.ConnectError")
  ∧ fst (fetch_financial_news no_float_truthy str_only one_search_world
           sample_agent 3 [])
    = Raise (ExternalError "requests.exceptions.ConnectionError")
  ∧ fst (fetch_financial_news no_float_truthy str_only three_inserts_world
           sample_agent 3 [])
    = Raise (ExternalError "httpx.ConnectError").
Proof.
  split_and!.
  - destruct (network_exceptions_propagate no_float_truthy str_only
                moody_world sample_agent) as (Hstatus & _).
    rewrite (Hstatus "down" 10 []
               {| status_code := 500;
                  response_json := Raise (ExternalError "JSONDecodeError") |}
               eq_refl ltac:(discriminate)).
    reflexivity.
  - destruct (network_exceptions_propagate no_float_truthy str_only
                flaky_world sample_agent) as (_ & Hpayload & _).
    assert (Hrun : insert_replies no_float_truthy flaky_world []
              ["first"; "second"]
              [empty_reply;
               stored_reply (news_row "2024-05-01T12:00:00" "second")]
              (snd (store_in_supabase no_float_truthy flaky_world
                      sample_agent ["first"; "second"] []))).
    { eapply replies_cons; [reflexivity|].
      eapply replies_cons; [reflexivity|]. apply replies_nil. }
    by rewrite (Hpayload _ _ _ _ Hrun).
  - destruct (network_exceptions_propagate no_float_truthy str_only
                slow_start_world sample_agent) as (_ & _ & Hdown & _).
    assert (Hback : pipeline_steps no_float_truthy str_only slow_start_world
              sample_agent 2 [1]
              (after_failed_search sample_agent "bitcoin" 503
                 [EvCompletion (chat_request (iteration_prompt 0 2))])
              [2]
              (snd (fetch_financial_news no_float_truthy str_only
                      slow_start_world sample_agent 2 []))).
    { eapply pipeline_step;
        [vm_compute; reflexivity | vm_compute; reflexivity
        | vm_compute; reflexivity | vm_compute; reflexivity |].
      vm_compute. apply pipeline_done. }
    rewrite (Hdown 2 0 [] [1] [] [] [] "bitcoin" _
               {| status_code := 503;
                  response_json := Raise (ExternalError "JSONDecodeError") |}
               [2] _ eq_refl (pipeline_done _ _ _ _ _ _) eq_refl eq_refl
               ltac:(discriminate) Hback).
    reflexivity.
  - destruct (network_exceptions_propagate no_float_truthy str_only
                flaky_world sample_agent) as (_ & _ & _ & Hempty & _).
    assert (Hrun : insert_replies no_float_truthy flaky_world
              (snd (search_brave flaky_world sample_agent "bitcoin price news"
                      10 [EvCompletion (chat_request (iteration_prompt 0 2));
                          EvPrint (SearchingFor "bitcoin price news")]))
              [formatted_record str_only
                 (<["title" := JStr "Bitcoin rallies"]>
                    (<["url" := JStr "https://a.example/1"]> ∅));
               formatted_record str_only
                 (<["title" := JStr "Markets today"]>
                    (<["url" := JStr "https://b.example/2"]> ∅))]
              [empty_reply;
               stored_reply
                 (news_row "2024-05-01T12:00:00"
                    (formatted_record str_only
                       (<["title" := JStr "Markets today"]>
                          (<["url" := JStr "https://b.example/2"]> ∅))))]
              (snd (store_in_supabase no_float_truthy flaky_world sample_agent
                      [formatted_record str_only
                         (<["title" := JStr "Bitcoin rallies"]>
                            (<["url" := JStr "https://a.example/1"]> ∅));
                       formatted_record str_only
                         (<["title" := JStr "Markets today"]>
                            (<["url" := JStr "https://b.example/2"]> ∅))]
                      (snd (search_brave flaky_world sample_agent
                              "bitcoin price news" 10
                              [EvCompletion
                                 (chat_request (iteration_prompt 0 2));
                               EvPrint
                                 (SearchingFor "bitcoin price news")]))))).
    { eapply replies_cons; [vm_compute; reflexivity|].
      eapply replies_cons; [vm_compute; reflexivity|].
      vm_compute. apply replies_nil. }
    assert (Hback : pipeline_steps no_float_truthy str_only flaky_world
              sample_agent 2 [1]
              (snd (fetch_iteration no_float_truthy str_only flaky_world
                      sample_agent 2 0 []))
              [2]
              (snd (fetch_financial_news no_float_truthy str_only
                      flaky_world sample_agent 2 []))).
    { eapply pipeline_step;
        [vm_compute; reflexivity | vm_compute; reflexivity
        | vm_compute; reflexivity | vm_compute; reflexivity |].
      vm_compute. apply pipeline_done. }
    rewrite (Hempty 2 0 [] [1] [] [] [] "bitcoin price news" _ two_hits_list
               _ _ _ _ [2] _ eq_refl (pipeline_done _ _ _ _ _ _) eq_refl
               eq_refl eq_refl Hrun Hback).
    reflexivity.
  - destruct (network_exceptions_propagate no_float_truthy str_only
                offline_world sample_agent) as (_ & _ & _ & _ & Hsearch & _).
    by rewrite (Hsearch "bitcoin price news" 10 []
                  (ExternalError "requests.exceptions.ConnectionError")
                  eq_refl).
  - destruct (network_exceptions_propagate no_float_truthy str_only
                one_insert_world sample_agent)
      as (_ & _ & _ & _ & _ & Hinsert & _).
    assert (Hrun : insert_replies no_float_truthy one_insert_world []
              ["first"]
              [stored_reply (news_row "2024-05-01T12:00:00" "first")]
              [EvInsert "eco_info" (news_row "2024-05-01T12:00:00" "first")]).
    { eapply replies_cons; [reflexivity|]. apply replies_nil. }
    change ["first"; "second"; "third"]
      with (["first"] ++ "second" :: ["third"]).
    by rewrite (Hinsert ["first"] "second" ["third"] [] _ _
                  (ExternalError "httpx.ConnectError") Hrun eq_refl).
  - destruct (network_exceptions_propagate no_float_truthy str_only
                one_search_world sample_agent)
      as (_ & _ & _ & _ & _ & _ & Hrun & _).
    assert (Hfront : pipeline_steps no_float_truthy str_only one_search_world
              sample_agent 3 [0] [] [2]
              (snd (fetch_iteration no_float_truthy str_only one_search_world
                      sample_agent 3 0 []))).
    { eapply pipeline_step;
        [vm_compute; reflexivity | vm_compute; reflexivity
        | vm_compute; reflexivity | vm_compute; reflexivity |].
      vm_compute. apply pipeline_done. }
    by rewrite (Hrun 3 1 [0] [2] [] [2] _ "bitcoin" _
                  (ExternalError "requests.exceptions.ConnectionError")
                  eq_refl Hfront eq_refl eq_refl).
  - destruct (network_exceptions_propagate no_float_truthy str_only
                three_inserts_world sample_agent)
      as (_ & _ & _ & _ & _ & _ & _ & Hrun).
    assert (Hfront : pipeline_steps no_float_truthy str_only
              three_inserts_world sample_agent 3 [0] [] [2]
              (snd (fetch_iteration no_float_truthy str_only
                      three_inserts_world sample_agent 3 0 []))).
    { eapply pipeline_step;
        [vm_compute; reflexivity | vm_compute; reflexivity
        | vm_compute; reflexivity | vm_compute; reflexivity |].
      vm_compute. apply pipeline_done. }
    assert (Hfetch : ∃ t',
              fetch_financial_news no_float_truthy str_only
                three_inserts_world sample_agent 3 []
              = (Raise (ExternalError "httpx.ConnectError"), t')).
    { eexists.
      eapply (Hrun 3 1 [0] [2] [] [2] _ "bitcoin" _ two_hits_list _
                [formatted_record str_only
                   (<["title" := JStr "Bitcoin rallies"]>
                      (<["url" := JStr "https://a.example/1"]> ∅))]
                (formatted_record str_only
                   (<["title" := JStr "Markets today"]>
                      (<["url" := JStr "https://b.example/2"]> ∅)))
                []).
      - reflexivity.
      - exact Hfront.
      - vm_compute. reflexivity.
      - vm_compute. reflexivity.
      - vm_compute. reflexivity.
      - eapply replies_cons; [vm_compute; reflexivity|]. apply replies_nil.
      - vm_compute. reflexivity. }
    destruct Hfetch as [t' ->]. reflexivity.
Defined.
